(** * tldr.py: the text normalizer and the two-pass summarization pipeline

    A shallow embedding of [src/tldr.py].  A Python [str] is a sequence of
    code points; here a code point is a Stdlib [ascii] (U+0000 .. U+00FF,
    the Latin-1 block), and a string is a [list ascii].  On that block the
    tables of [str.isspace], [str.splitlines], the regex classes [\s] and
    [\d], and [str.lower] are written out in full.  Python's [int] is [Z].

    The completion service ([subprocess.run] on [ollama]) is an oracle that
    the pipeline consults through a small state-and-exit monad; the world
    records every invocation.  The program is modelled twice: first with
    every library call coming back, then, in module [Raising], with the
    calls that raise an exception the program does not catch. *)

From Stdlib Require Import Ascii String List ZArith NArith Bool Lia Arith.
From Stdlib Require Import Numbers.DecimalString.
From Equations Require Import Equations.
Import ListNotations.

Local Open Scope list_scope.

(** ** Strings and code points *)

Definition pystr := list ascii.

(** A Python string literal. *)
Definition str (s : string) : pystr := list_ascii_of_string s.

Definition code (c : ascii) : N := N_of_ascii c.

Definition in_range (lo hi : N) (c : ascii) : bool :=
  (lo <=? code c)%N && (code c <=? hi)%N.

(** [str.isspace] on one code point; the regex class [\s] on [str]
    patterns is the same table. *)
Definition is_space (c : ascii) : bool :=
  in_range 9 13 c || in_range 28 31 c || (code c =? 32)%N
  || (code c =? 133)%N || (code c =? 160)%N.

(** The line boundaries of [str.splitlines]. *)
Definition is_linebreak (c : ascii) : bool :=
  in_range 10 13 c || in_range 28 30 c || (code c =? 133)%N.

(** The regex class [\d] on [str] patterns: decimal digits. *)
Definition is_digit (c : ascii) : bool := in_range 48 57 c.

(** [str.lower] on one code point. *)
Definition lower_char (c : ascii) : ascii :=
  if in_range 65 90 c || (in_range 192 222 c && negb (code c =? 215)%N)
  then ascii_of_N (code c + 32)
  else c.

Definition lower (s : pystr) : pystr := map lower_char s.

Definition len (s : pystr) : Z := Z.of_nat (length s).

(** [s.startswith(p)] *)
Fixpoint startswith (s p : pystr) : bool :=
  match p, s with
  | [], _ => true
  | x :: p', y :: s' => Ascii.eqb x y && startswith s' p'
  | _ :: _, [] => false
  end.

(** [s.endswith(p)] *)
Definition endswith (s p : pystr) : bool := startswith (rev s) (rev p).

(** [kw in s]: substring containment. *)
Fixpoint contains (s kw : pystr) : bool :=
  startswith s kw ||
  match s with
  | [] => false
  | _ :: s' => contains s' kw
  end.

(** [s.lstrip()], [s.rstrip()], [s.strip()] *)
Fixpoint lstrip (s : pystr) : pystr :=
  match s with
  | c :: s' => if is_space c then lstrip s' else s
  | [] => []
  end.

Definition rstrip (s : pystr) : pystr := rev (lstrip (rev s)).

Definition strip (s : pystr) : pystr := rstrip (lstrip s).

(** [s[:stop]]: a negative [stop] counts from the end, and the bounds are
    clipped to the string. *)
Definition slice_to (s : pystr) (stop : Z) : pystr :=
  let stop' := if (stop <? 0)%Z then Z.max 0 (stop + len s) else Z.min stop (len s) in
  firstn (Z.to_nat stop') s.

(** [sep.join(parts)] *)
Fixpoint join (sep : pystr) (parts : list pystr) : pystr :=
  match parts with
  | [] => []
  | [p] => p
  | p :: rest => p ++ sep ++ join sep rest
  end.

(** [s.splitlines()]: the text is cut at every line boundary, a carriage
    return directly followed by a line feed counts as one boundary, and no
    empty line is reported after the last boundary. *)
Fixpoint splitlines (s : pystr) : list pystr :=
  match s with
  | [] => []
  | c :: s' =>
      if is_linebreak c then
        [] :: match s' with
              | d :: s'' =>
                  if Ascii.eqb c "013" && Ascii.eqb d "010"
                  then splitlines s'' else splitlines s'
              | [] => []
              end
      else match splitlines s' with
           | [] => [[c]]
           | l :: ls => (c :: l) :: ls
           end
  end.

(** [re.sub(r"\s+", " ", s)]: the flag says that the scan is inside a
    whitespace run whose replacement has already been written. *)
Fixpoint sub_ws_from (in_run : bool) (s : pystr) : pystr :=
  match s with
  | [] => []
  | c :: s' =>
      if is_space c
      then if in_run then sub_ws_from true s' else " "%char :: sub_ws_from true s'
      else c :: sub_ws_from false s'
  end.

Definition sub_ws (s : pystr) : pystr := sub_ws_from false s.

(** ** enforce_character_limit *)

Definition enforce_character_limit (text : pystr) (max_chars : Z) : pystr :=
  if (len text <=? max_chars)%Z then text
  else
    let truncated := rstrip (slice_to text max_chars) in
    if negb (endswith truncated (str "."))
    then truncated ++ str "."
    else truncated.

(** ** The bullet pattern of strip_bullet_points

    [bullet_pattern = ^(\*|-|\d+\.)\s?|\d+\)\s?|^```] has three
    alternatives; [^] binds inside the first and the third only.  Each
    matcher reports how many code points a match at the head of its
    argument consumes (the match's end offset), the way the regex engine
    tries it: leftmost alternative first, greedy quantifiers. *)

(** [\s?] *)
Definition opt_space (s : pystr) : nat :=
  match s with
  | c :: _ => if is_space c then 1 else 0
  | [] => 0
  end.

(** The length of the longest run of [\d] at the head. *)
Fixpoint digit_run (s : pystr) : nat :=
  match s with
  | c :: s' => if is_digit c then S (digit_run s') else 0
  | [] => 0
  end.

(** [\d+] followed by the literal [close]. *)
Definition match_run (close : ascii) (s : pystr) : option nat :=
  match digit_run s with
  | 0 => None
  | S _ as n =>
      match skipn n s with
      | d :: _ => if Ascii.eqb d close then Some (n + 1) else None
      | [] => None
      end
  end.

(** A matcher followed by [\s?]. *)
Definition then_opt_space (m : pystr -> option nat) (s : pystr) : option nat :=
  match m s with
  | Some n => Some (n + opt_space (skipn n s))
  | None => None
  end.

(** [\*|-] *)
Definition match_star_or_hyphen (s : pystr) : option nat :=
  match s with
  | c :: _ => if Ascii.eqb c "*" || Ascii.eqb c "-" then Some 1 else None
  | [] => None
  end.

Definition or_else {A} (a b : option A) : option A :=
  match a with
  | Some _ => a
  | None => b
  end.

(** The group [(\*|-|\d+\.)] *)
Definition match_marker (s : pystr) : option nat :=
  or_else (match_star_or_hyphen s) (match_run "." s).

(** [(\*|-|\d+\.)\s?] *)
Definition match_bullet : pystr -> option nat := then_opt_space match_marker.

(** [\d+\)\s?] *)
Definition match_enum_paren : pystr -> option nat := then_opt_space (match_run ")").

(** [```] *)
Definition match_fence (s : pystr) : option nat :=
  if startswith s (str "```") then Some 3 else None.

(** One attempt of the whole pattern at the head of [s]; [at_start] says
    whether the scan is at offset 0 of the subject, where [^] holds. *)
Definition bullet_pattern (at_start : bool) (s : pystr) : option nat :=
  or_else (if at_start then match_bullet s else None)
    (or_else (match_enum_paren s)
       (if at_start then match_fence s else None)).

(** [re.sub(bullet_pattern, "", s)]: every match, found left to right, is
    deleted and the scan resumes at the end of the match; a code point at
    which no alternative matches is copied.  A match consumes [n >= 1] code
    points of [c :: s'], which leaves [skipn (pred n) s']. *)
Equations? sub_bullet_from (at_start : bool) (s : pystr) : pystr
  by wf (length s) lt :=
  sub_bullet_from _ [] := [];
  sub_bullet_from b (c :: s') with bullet_pattern b (c :: s') := {
    | Some n := sub_bullet_from false (skipn (pred n) s');
    | None := c :: sub_bullet_from false s' }.
Proof.
  rewrite length_skipn. lia.
Qed.

Definition sub_bullet (s : pystr) : pystr := sub_bullet_from true s.

(** ** The two cleaning passes *)

Definition disclaimer_keywords : list pystr :=
  [str "rewrite"; str "rewriting"; str "disclaimer"; str "the article"].

(** The test of the loop body: [any(kw in lower_line for kw in [...])]. *)
Definition mentions_disclaimer (line : pystr) : bool :=
  let lower_line := strip (lower line) in
  existsb (fun kw => contains lower_line kw) disclaimer_keywords.

Definition remove_disclaimers_and_mentions (text : pystr) : pystr :=
  let lines := splitlines text in
  let cleaned_lines := filter (fun line => negb (mentions_disclaimer line)) lines in
  let paragraph := join (str " ") cleaned_lines in
  strip (sub_ws paragraph).

Definition nonempty (s : pystr) : bool :=
  match s with
  | [] => false
  | _ :: _ => true
  end.

(** The list [cleaned_lines] that the loop of strip_bullet_points builds. *)
Definition bullet_cleaned_lines (text : pystr) : list pystr :=
  filter nonempty (map (fun line => sub_bullet (strip line)) (splitlines text)).

Definition strip_bullet_points (text : pystr) : pystr :=
  let cleaned_lines := bullet_cleaned_lines text in
  let paragraph := join (str " ") cleaned_lines in
  strip (sub_ws paragraph).

(** ** The completion service and the pipeline *)

(** What [subprocess.run(..., capture_output=True, text=True)] hands back. *)
Record CompletedProcess : Type := {
  returncode : Z;
  stdout : pystr;
  stderr : pystr
}.

(** One invocation [ollama run <model_name>] with the prompt on its input. *)
Definition Invocation : Type := (pystr * pystr)%type.

(** The service is an arbitrary oracle: its answer may depend on the
    invocations made before and on the present one.  Here every call of
    [subprocess.run] hands back a [CompletedProcess]; module [Raising]
    below also has the calls that raise. *)
Definition Service : Type := list Invocation -> Invocation -> CompletedProcess.

Record World : Type := {
  invocations : list Invocation;
  printed : list pystr
}.

Definition start : World := {| invocations := []; printed := [] |}.

(** A computation either returns or leaves through [sys.exit]. *)
Inductive Outcome (A : Type) : Type :=
| Returned (a : A)
| Exited (status : Z).
Arguments Returned {A} a.
Arguments Exited {A} status.

Definition M (A : Type) : Type := World -> Outcome A * World.

Definition ret {A} (a : A) : M A := fun w => (Returned a, w).

Definition bind {A B} (m : M A) (k : A -> M B) : M B :=
  fun w =>
    match m w with
    | (Returned a, w') => k a w'
    | (Exited status, w') => (Exited status, w')
    end.

Notation "x <- m ;; k" := (bind m (fun x => k))
  (at level 61, m at next level, right associativity).

Definition sys_exit {A} (status : Z) : M A := fun w => (Exited status, w).

Definition print (line : pystr) : M unit :=
  fun w => (Returned tt,
            {| invocations := invocations w; printed := printed w ++ [line] |}).

(** [f"{n}"] for an [int]. *)
Definition format_int (n : Z) : pystr := str (NilZero.string_of_int (Z.to_int n)).

Definition LF : pystr := ["010"%char].

(** [re.search(r"(\*|-|\d+\.)", s)] read as a truth value. *)
Fixpoint search_marker (s : pystr) : bool :=
  match match_marker s with
  | Some _ => true
  | None =>
      match s with
      | [] => false
      | _ :: s' => search_marker s'
      end
  end.

(** The two prompts, which the source builds in the local variables
    [prompt_1] and [prompt_2]. *)
Definition prompt_1 (main_text : pystr) (max_chars : Z) : pystr :=
  str "Produce a concise, single-paragraph TLDR of the text below in under "
  ++ format_int max_chars ++ str " characters. "
  ++ str "Do not include bullet points, enumerations, disclaimers, code listings, or references to rewriting. "
  ++ str "Simply provide the gist in plain text:" ++ LF ++ LF
  ++ main_text ++ LF ++ LF
  ++ str "Summary:".

Definition prompt_2 (first_pass_output : pystr) (max_chars : Z) : pystr :=
  str "Rewrite the following text into a single paragraph under "
  ++ format_int max_chars ++ str " characters. "
  ++ str "Remove any bullet points, enumerations, disclaimers, code listings, or references to rewriting/the article. "
  ++ str "Do not apologize or explain. Just produce the final summary:" ++ LF ++ LF
  ++ first_pass_output ++ LF ++ LF
  ++ str "Final summary:".

Section Pipeline.

Variable ollama : Service.

Definition subprocess_run (model_name prompt : pystr) : M CompletedProcess :=
  fun w =>
    (Returned (ollama (invocations w) (model_name, prompt)),
     {| invocations := invocations w ++ [(model_name, prompt)];
        printed := printed w |}).

Definition llama_run (model_name prompt : pystr) : M pystr :=
  result <- subprocess_run model_name prompt ;;
  if negb (returncode result =? 0)%Z then
    _ <- print (str "Error running ollama command: " ++ stderr result) ;;
    sys_exit 1
  else ret (strip (stdout result)).

Definition pass_one_summary (main_text : pystr) (max_chars : Z)
    (model_name : pystr) : M pystr :=
  output_1 <- llama_run model_name (prompt_1 main_text max_chars) ;;
  ret output_1.

Definition pass_two_rewrite (first_pass_output : pystr) (max_chars : Z)
    (model_name : pystr) : M pystr :=
  output_2 <- llama_run model_name (prompt_2 first_pass_output max_chars) ;;
  ret output_2.

Definition summarize_text_with_llama (text : pystr) (max_chars : Z)
    (model_name : pystr) : M pystr :=
  first_pass <- pass_one_summary text max_chars model_name ;;
  let pass_one_cleaned := remove_disclaimers_and_mentions first_pass in
  let has_bullets := search_marker pass_one_cleaned in
  final_text <-
    (if has_bullets then
       second_pass <- pass_two_rewrite pass_one_cleaned max_chars model_name ;;
       let second_pass_cleaned := remove_disclaimers_and_mentions second_pass in
       ret (strip_bullet_points second_pass_cleaned)
     else ret (strip_bullet_points pass_one_cleaned)) ;;
  ret (enforce_character_limit final_text max_chars).

End Pipeline.

Definition DEFAULT_MODEL_NAME : pystr := str "llama3.2-vision:11b".
Definition DEFAULT_MAX_CHARS : Z := 500.
Definition EXAMPLE_URL : pystr := str "https://example.com/article".

(** ** The driver

    The two library calls of the driver are oracles.  The [try] block of
    fetch_article, [requests.get(url, timeout=10)] followed by
    [response.raise_for_status()], either leaves a response, of which the
    code reads [response.text], or raises a [RequestException] [e], of
    which the code reads [f"{e}"].  In extract_main_text the oracle is what
    [soup.get_text(separator="\n")] gives once the script and style tags
    are decomposed. *)

Inductive HttpOutcome : Type :=
| Responded (text : pystr)
| RequestException (message : pystr).

Definition Network : Type := pystr -> HttpOutcome.

Definition HtmlParser : Type := pystr -> pystr.

(** The options as [parser.parse_args()] hands them over. *)
Record Namespace : Type := {
  url : pystr;
  characters : Z;
  model : pystr
}.

(** The options when no flag is given. *)
Definition default_args : Namespace :=
  {| url := EXAMPLE_URL; characters := DEFAULT_MAX_CHARS;
     model := DEFAULT_MODEL_NAME |}.

Section Driver.

Variable requests_get : Network.
Variable soup_get_text : HtmlParser.
Variable ollama : Service.

Definition fetch_article (url : pystr) : M pystr :=
  match requests_get url with
  | Responded text => ret text
  | RequestException e =>
      _ <- print (str "Error fetching the article: " ++ e) ;;
      sys_exit 1
  end.

Definition extract_main_text (html_content : pystr) : pystr :=
  strip (soup_get_text html_content).

(** [main] from [args = parser.parse_args()] on. *)
Definition main (args : Namespace) : M unit :=
  let max_chars := characters args in
  let model_name := model args in
  let url := url args in
  html_content <- fetch_article url ;;
  let main_text := extract_main_text html_content in
  summary <- summarize_text_with_llama ollama main_text max_chars model_name ;;
  _ <- print (LF ++ str "--- SUMMARY ---" ++ LF) ;;
  _ <- print summary ;;
  print (LF ++ str "---------------").

End Driver.

(** ** The same program when a library call raises

    The definitions above take every call of [subprocess.run],
    [BeautifulSoup] and [get_text] to come back, and [requests.get] to
    raise nothing but a [RequestException].  Here each of these calls may
    also raise an exception that no handler of the program catches: the
    exception ends the run.  The built-in operations on [str] and [print]
    are taken not to raise.  A call of [subprocess.run] that raises leaves
    no invocation in the log. *)
Module Raising.

Inductive Outcome (A : Type) : Type :=
| Returned (a : A)
| Exited (status : Z)
| Raised (exception : pystr).
Arguments Returned {A} a.
Arguments Exited {A} status.
Arguments Raised {A} exception.

Definition M (A : Type) : Type := World -> Outcome A * World.

Definition ret {A} (a : A) : M A := fun w => (Returned a, w).

Definition bind {A B} (m : M A) (k : A -> M B) : M B :=
  fun w =>
    match m w with
    | (Returned a, w') => k a w'
    | (Exited status, w') => (Exited status, w')
    | (Raised exception, w') => (Raised exception, w')
    end.

Notation "x <-- m ;; k" := (bind m (fun x => k))
  (at level 61, m at next level, right associativity).

Definition sys_exit {A} (status : Z) : M A := fun w => (Exited status, w).

Definition raise {A} (exception : pystr) : M A :=
  fun w => (Raised exception, w).

Definition print (line : pystr) : M unit :=
  fun w => (Returned tt,
            {| invocations := invocations w; printed := printed w ++ [line] |}).

(** What one call of [subprocess.run] does. *)
Inductive RunOutcome : Type :=
| Completed (result : CompletedProcess)
| RunRaises (exception : pystr).

Definition Service : Type := list Invocation -> Invocation -> RunOutcome.

(** What the [try] block of fetch_article does. *)
Inductive HttpOutcome : Type :=
| Responded (text : pystr)
| RequestException (message : pystr)
| HttpRaises (exception : pystr).

Definition Network : Type := pystr -> HttpOutcome.

(** What parsing the page and reading its text does. *)
Inductive ParseOutcome : Type :=
| Parsed (text : pystr)
| ParseRaises (exception : pystr).

Definition HtmlParser : Type := pystr -> ParseOutcome.

Section Program.

Variable requests_get : Network.
Variable soup_get_text : HtmlParser.
Variable ollama : Service.

Definition subprocess_run (model_name prompt : pystr) : M CompletedProcess :=
  fun w =>
    match ollama (invocations w) (model_name, prompt) with
    | Completed result =>
        (Returned result,
         {| invocations := invocations w ++ [(model_name, prompt)];
            printed := printed w |})
    | RunRaises exception => (Raised exception, w)
    end.

Definition llama_run (model_name prompt : pystr) : M pystr :=
  result <-- subprocess_run model_name prompt ;;
  if negb (returncode result =? 0)%Z then
    _ <-- print (str "Error running ollama command: " ++ stderr result) ;;
    sys_exit 1
  else ret (strip (stdout result)).

Definition pass_one_summary (main_text : pystr) (max_chars : Z)
    (model_name : pystr) : M pystr :=
  output_1 <-- llama_run model_name (prompt_1 main_text max_chars) ;;
  ret output_1.

Definition pass_two_rewrite (first_pass_output : pystr) (max_chars : Z)
    (model_name : pystr) : M pystr :=
  output_2 <-- llama_run model_name (prompt_2 first_pass_output max_chars) ;;
  ret output_2.

Definition summarize_text_with_llama (text : pystr) (max_chars : Z)
    (model_name : pystr) : M pystr :=
  first_pass <-- pass_one_summary text max_chars model_name ;;
  let pass_one_cleaned := remove_disclaimers_and_mentions first_pass in
  let has_bullets := search_marker pass_one_cleaned in
  final_text <--
    (if has_bullets then
       second_pass <-- pass_two_rewrite pass_one_cleaned max_chars model_name ;;
       let second_pass_cleaned := remove_disclaimers_and_mentions second_pass in
       ret (strip_bullet_points second_pass_cleaned)
     else ret (strip_bullet_points pass_one_cleaned)) ;;
  ret (enforce_character_limit final_text max_chars).

Definition fetch_article (url : pystr) : M pystr :=
  match requests_get url with
  | Responded text => ret text
  | RequestException e =>
      _ <-- print (str "Error fetching the article: " ++ e) ;;
      sys_exit 1
  | HttpRaises exception => raise exception
  end.

Definition extract_main_text (html_content : pystr) : M pystr :=
  match soup_get_text html_content with
  | Parsed text => ret (strip text)
  | ParseRaises exception => raise exception
  end.

Definition main (args : Namespace) : M unit :=
  let max_chars := characters args in
  let model_name := model args in
  let url := url args in
  html_content <-- fetch_article url ;;
  main_text <-- extract_main_text html_content ;;
  summary <-- summarize_text_with_llama main_text max_chars model_name ;;
  _ <-- print (LF ++ str "--- SUMMARY ---" ++ LF) ;;
  _ <-- print summary ;;
  print (LF ++ str "---------------").

End Program.

End Raising.

(** The oracles of the first model seen as oracles that never raise, and
    an outcome of the first model seen as an outcome of the second. *)
Definition completing (ollama : Service) : Raising.Service :=
  fun earlier call => Raising.Completed (ollama earlier call).

Definition answering (requests_get : Network) : Raising.Network :=
  fun url =>
    match requests_get url with
    | Responded text => Raising.Responded text
    | RequestException message => Raising.RequestException message
    end.

Definition parsing (soup_get_text : HtmlParser) : Raising.HtmlParser :=
  fun html_content => Raising.Parsed (soup_get_text html_content).

Definition lift {A} (run : Outcome A * World) : Raising.Outcome A * World :=
  match run with
  | (Returned a, w) => (Raising.Returned a, w)
  | (Exited status, w) => (Raising.Exited status, w)
  end.

(** * Vocabulary of the properties *)

(** ** Substrings and markers *)

(** [kw] occurs in [s] as a contiguous run of code points. *)
Definition is_substring (kw s : pystr) : Prop :=
  exists a b, s = a ++ kw ++ b.

(** The text holds an asterisk, a hyphen, or a digit directly followed by
    a period. *)
Definition has_marker (s : pystr) : Prop :=
  In "*"%char s \/ In "-"%char s \/
  exists a d b, is_digit d = true /\ s = a ++ d :: "."%char :: b.

(** The subject begins with a marker of the recognised set: the bullet
    pattern matches at offset 0. *)
Definition begins_with_marker (s : pystr) : bool :=
  match bullet_pattern true s with
  | Some _ => true
  | None => false
  end.

Definition starts_with_paren (s : pystr) : bool :=
  match s with
  | c :: _ => Ascii.eqb c ")"
  | [] => false
  end.

(** No digit is directly followed by a closing parenthesis. *)
Fixpoint digit_paren_free (s : pystr) : bool :=
  match s with
  | [] => true
  | c :: s' => negb (is_digit c && starts_with_paren s') && digit_paren_free s'
  end.

(** ** Whitespace normal form

    The last two statements of both cleaning passes are
    [re.sub(r"\s+", " ", paragraph).strip()].  Their result is tidy: every
    whitespace code point is a single blank standing between two
    code points that are not whitespace. *)

Definition starts_clean (s : pystr) : bool :=
  match s with
  | c :: _ => negb (is_space c)
  | [] => true
  end.

Definition ends_clean (s : pystr) : bool := starts_clean (rev s).

Fixpoint single_spaced (s : pystr) : bool :=
  match s with
  | [] => true
  | c :: s' =>
      (if is_space c then Ascii.eqb c " " && starts_clean s' else true)
      && single_spaced s'
  end.

Record Tidy (s : pystr) : Prop := {
  tidy_spaced : single_spaced s = true;
  tidy_head : starts_clean s = true;
  tidy_last : ends_clean s = true
}.



Definition no_newline (s : pystr) : Prop := ~ In "010"%char s.

Definition no_whitespace_run (s : pystr) : Prop :=
  forall a c d b, s = a ++ c :: d :: b ->
                  ~ (is_space c = true /\ is_space d = true).

Definition no_outer_whitespace (s : pystr) : Prop :=
  (forall c r, s = c :: r -> is_space c = false) /\
  (forall r c, s = r ++ [c] -> is_space c = false).

(** No digit of [s] is directly followed by a closing parenthesis. *)
Definition no_digit_paren (s : pystr) : Prop :=
  forall a d b, s = a ++ d :: ")"%char :: b -> is_digit d = false.

(** [s] is [p], or [p] followed by one period. *)
Definition maybe_period (p s : pystr) : Prop :=
  s = p \/ s = p ++ str ".".

(** ** Runs of the pipeline *)

(** The two banner lines that [main] prints around the summary. *)
Definition summary_banner : pystr := LF ++ str "--- SUMMARY ---" ++ LF.

Definition closing_banner : pystr := LF ++ str "---------------".

(** The line that llama_run prints before it exits. *)
Definition ollama_complaint (err : pystr) : pystr :=
  str "Error running ollama command: " ++ err.

Definition logged (w : World) (call : Invocation) : World :=
  {| invocations := invocations w ++ [call]; printed := printed w |}.

Definition complained (w : World) (line : pystr) : World :=
  {| invocations := invocations w; printed := printed w ++ [line] |}.

(** How many times one run of the pipeline invokes the service. *)
Definition calls_made (ollama : Service) (text : pystr) (max_chars : Z)
    (model_name : pystr) (w : World) : nat :=
  length (invocations
            (snd (summarize_text_with_llama ollama text max_chars model_name w)))
  - length (invocations w).

(** What the first invocation of a run hands back, and the value the
    pipeline keeps of it in [first_pass]. *)
Definition first_result (ollama : Service) (text : pystr) (max_chars : Z)
    (model_name : pystr) (w : World) : CompletedProcess :=
  ollama (invocations w) (model_name, prompt_1 text max_chars).

Definition first_pass_of (ollama : Service) (text : pystr) (max_chars : Z)
    (model_name : pystr) (w : World) : pystr :=
  strip (stdout (first_result ollama text max_chars model_name w)).

(** How a run of the pipeline can end when calls may raise: with a tidy
    summary and nothing printed; through [sys.exit(1)] after the complaint
    of the invocation logged last, which came back with a return code other
    than 0; or with the exception of a call of [subprocess.run], nothing
    printed. *)
Definition pipeline_ending (ollama : Raising.Service) (w : World)
    (run : Raising.Outcome pystr * World) : Prop :=
  match fst run with
  | Raising.Returned summary => printed (snd run) = printed w /\ Tidy summary
  | Raising.Exited status =>
      status = 1%Z /\
      exists earlier call result,
        invocations (snd run) = earlier ++ [call] /\
        ollama earlier call = Raising.Completed result /\
        returncode result <> 0%Z /\
        printed (snd run) = printed w ++ [ollama_complaint (stderr result)]
  | Raising.Raised exception =>
      printed (snd run) = printed w /\
      exists call,
        ollama (invocations (snd run)) call = Raising.RunRaises exception
  end.

(** A service that answers from a script: the n-th invocation gets the
    n-th entry as its output with return code 0, and fails once the script
    is used up. *)
Definition scripted (answers : list pystr) : Service :=
  fun earlier _ =>
    match nth_error answers (length earlier) with
    | Some out => {| returncode := 0; stdout := out; stderr := [] |}
    | None => {| returncode := 1; stdout := []; stderr := str "no model" |}
    end.

(** A service that never fails and always gives the same answer. *)
Definition constant_service (answer : pystr) : Service :=
  fun _ _ => {| returncode := 0; stdout := answer; stderr := [] |}.

(** ** Sample texts *)

Definition article : pystr :=
  str "Title" ++ LF ++ str "Body paragraph one. Body paragraph two.".

Definition two_bullets : pystr := str "- one" ++ LF ++ str "- two".

Definition plain_sentence : pystr := str "Plain sentence with no markers.".

(** The two bullet lines inside disclaimer lines. *)
Definition disclaimed_bullets : pystr :=
  str "rewrite - one" ++ LF ++ str "- two rewrite".

Definition bulleted_answer : pystr :=
  str "- Summary point A" ++ LF ++ str "- Summary point B about something long".

Definition rewritten_answer : pystr := str "Summary about A and B.".

Definition three_disclaimer_lines : pystr :=
  str "Here is a REWRITE of the text" ++ LF
  ++ str "  Disclaimer: I am a model" ++ LF
  ++ str "The Article is about cats".

(** * Lemmas and theorems *)

(** ** Stripping whitespace *)

Lemma lstrip_decompose (s : pystr) :
  exists w, s = w ++ lstrip s /\ forallb is_space w = true.
Proof.
  induction s as [|c s IH]; simpl.
  - exists []. split; reflexivity.
  - destruct (is_space c) eqn:Hc.
    + destruct IH as [w [Hs Hw]]. exists (c :: w). simpl.
      rewrite Hc, Hw. split; [f_equal; exact Hs | reflexivity].
    + exists []. split; reflexivity.
Qed.

Lemma lstrip_idempotent (s : pystr) : lstrip (lstrip s) = lstrip s.
Proof.
  induction s as [|c s IH]; simpl; [reflexivity|].
  destruct (is_space c) eqn:Hc; [exact IH|].
  simpl. rewrite Hc. reflexivity.
Qed.

Lemma rstrip_decompose (s : pystr) :
  exists w, s = rstrip s ++ w /\ forallb is_space w = true.
Proof.
  unfold rstrip. destruct (lstrip_decompose (rev s)) as [w [Hs Hw]].
  exists (rev w). split.
  - rewrite <- rev_app_distr, <- Hs, rev_involutive. reflexivity.
  - rewrite forallb_forall in *. intros x Hx. apply Hw, in_rev, Hx.
Qed.

Lemma rstrip_idempotent (s : pystr) : rstrip (rstrip s) = rstrip s.
Proof.
  unfold rstrip. rewrite rev_involutive, lstrip_idempotent. reflexivity.
Qed.

Lemma rstrip_length (s : pystr) : length (rstrip s) <= length s.
Proof.
  destruct (rstrip_decompose s) as [w [Hs _]].
  rewrite Hs at 2. rewrite length_app. lia.
Qed.

(** ** Slicing *)

Lemma slice_to_length (s : pystr) (b : Z) :
  (0 <= b)%Z -> (len (slice_to s b) <= b)%Z.
Proof.
  intros Hb. unfold slice_to, len.
  destruct (b <? 0)%Z eqn:E; [apply Z.ltb_lt in E; lia|].
  rewrite length_firstn. unfold len. lia.
Qed.

Lemma slice_to_prefix (s : pystr) (b : Z) :
  exists r, s = slice_to s b ++ r.
Proof.
  unfold slice_to. eexists. symmetry. apply firstn_skipn.
Qed.

Lemma slice_to_app_exact (t u : pystr) :
  slice_to (t ++ u) (len t) = t.
Proof.
  unfold slice_to, len.
  destruct (Z.of_nat (length t) <? 0)%Z eqn:E; [apply Z.ltb_lt in E; lia|].
  rewrite length_app, Z.min_l by lia.
  rewrite Nat2Z.id, firstn_app, Nat.sub_diag, firstn_all. simpl.
  apply app_nil_r.
Qed.

(** ** enforce_character_limit *)

Lemma enforce_within (text : pystr) (b : Z) :
  (len text <= b)%Z -> enforce_character_limit text b = text.
Proof.
  intros H. unfold enforce_character_limit.
  apply Z.leb_le in H. rewrite H. reflexivity.
Qed.

Lemma len_app (s t : pystr) : len (s ++ t) = (len s + len t)%Z.
Proof. unfold len. rewrite length_app. lia. Qed.

Lemma truncated_length (text : pystr) (b : Z) :
  (0 <= b)%Z -> (len (rstrip (slice_to text b)) <= b)%Z.
Proof.
  intros Hb. pose proof (slice_to_length text b Hb) as H1.
  pose proof (rstrip_length (slice_to text b)) as H2.
  unfold len in *. lia.
Qed.

Lemma enforce_beyond (text : pystr) (b : Z) :
  (len text > b)%Z ->
  enforce_character_limit text b =
  if endswith (rstrip (slice_to text b)) (str ".")
  then rstrip (slice_to text b)
  else rstrip (slice_to text b) ++ str ".".
Proof.
  intros H. unfold enforce_character_limit.
  replace (len text <=? b)%Z with false by (symmetry; apply Z.leb_gt; lia).
  cbv zeta. destruct (endswith _ _); reflexivity.
Qed.

(** C1. For every text and every budget [b > 0] the result has at most
    [b + 1] code points, and a text of at most [b] code points is returned
    unchanged. *)
Theorem enforce_character_limit_bound (text : pystr) (b : Z) :
  (0 < b)%Z ->
  (len (enforce_character_limit text b) <= b + 1)%Z /\
  ((len text <= b)%Z -> enforce_character_limit text b = text).
Proof.
  intros Hb. split; [|apply enforce_within].
  unfold enforce_character_limit.
  destruct (len text <=? b)%Z eqn:E.
  - apply Z.leb_le in E. lia.
  - assert (Ht : (len (rstrip (slice_to text b)) <= b)%Z)
      by (apply truncated_length; lia).
    cbv zeta. destruct (negb _).
    + rewrite len_app. change (len (str ".")) with 1%Z. lia.
    + lia.
Qed.

Lemma enforce_character_limit_bound_witness :
  (0 < 5)%Z /\
  (len (enforce_character_limit (str "hello world") 5) <= 5 + 1)%Z /\
  ((len (str "hello world") <= 5)%Z ->
   enforce_character_limit (str "hello world") 5 = str "hello world").
Proof.
  split; [reflexivity|].
  apply (enforce_character_limit_bound (str "hello world") 5). reflexivity.
Defined.

(** C10. For every text and every budget [b >= 0], enforcing the limit a
    second time changes nothing. *)
Theorem enforce_character_limit_idempotent (text : pystr) (b : Z) :
  (0 <= b)%Z ->
  enforce_character_limit (enforce_character_limit text b) b
  = enforce_character_limit text b.
Proof.
  intros Hb. destruct (Z_le_gt_dec (len text) b) as [E|E].
  - rewrite (enforce_within _ _ E). apply enforce_within, E.
  - rewrite (enforce_beyond _ _ E).
    pose proof (truncated_length text b Hb) as Ht.
    set (t := rstrip (slice_to text b)) in *.
    destruct (endswith t (str ".")) eqn:F.
    + apply enforce_within, Ht.
    + destruct (Z_le_gt_dec (len (t ++ str ".")) b) as [G|G].
      * apply enforce_within, G.
      * rewrite (enforce_beyond _ _ G).
        rewrite len_app in G. change (len (str ".")) with 1%Z in G.
        assert (Hfull : b = len t) by lia.
        rewrite Hfull, slice_to_app_exact.
        unfold t. rewrite rstrip_idempotent. fold t.
        rewrite F. reflexivity.
Qed.

Lemma enforce_character_limit_idempotent_witness :
  (0 <= 5)%Z /\
  enforce_character_limit (enforce_character_limit (str "hello world") 5) 5
  = enforce_character_limit (str "hello world") 5.
Proof.
  split; [discriminate|].
  apply (enforce_character_limit_idempotent (str "hello world") 5). discriminate.
Defined.

Lemma enforce_zero_budget (text : pystr) :
  slice_to text 0 = [] /\
  (text <> [] -> enforce_character_limit text 0 = str ".") /\
  (len (enforce_character_limit text 0) <= 1)%Z.
Proof.
  assert (Hs : slice_to text 0 = []).
  { unfold slice_to. simpl. rewrite Z.min_l by (unfold len; lia). reflexivity. }
  split; [exact Hs|].
  destruct text as [|c text].
  - split; [intros H; contradiction H; reflexivity | simpl; discriminate].
  - assert (E : enforce_character_limit (c :: text) 0 = str ".").
    { rewrite enforce_beyond by (unfold len; simpl length; lia).
      rewrite Hs. reflexivity. }
    rewrite E. split; [reflexivity | discriminate].
Qed.

Lemma slice_to_negative (text : pystr) (b : Z) :
  (b < 0)%Z -> (- b < len text)%Z ->
  slice_to text b = firstn (Z.to_nat (len text + b)) text /\
  len (slice_to text b) = (len text + b)%Z.
Proof.
  intros Hb Hlen. unfold slice_to.
  replace (b <? 0)%Z with true by (symmetry; apply Z.ltb_lt; exact Hb).
  rewrite Z.max_r by lia. rewrite Z.add_comm. split; [reflexivity|].
  unfold len in *. rewrite length_firstn. lia.
Qed.

(** C6. A negative budget does not give an empty slice: the slice
    [text[:-3]] of ["hello world"] is ["hello wo"], and the result, after
    the period is appended, has nine code points. *)
Theorem enforce_character_limit_negative_budget :
  slice_to (str "hello world") (-3) = str "hello wo" /\
  enforce_character_limit (str "hello world") (-3) = str "hello wo." /\
  len (enforce_character_limit (str "hello world") (-3)) = 9%Z.
Proof. repeat split. Qed.

(** ** remove_disclaimers_and_mentions *)

Lemma startswith_spec (s p : pystr) :
  startswith s p = true <-> exists b, s = p ++ b.
Proof.
  revert s. induction p as [|x p IH]; intros s; simpl.
  - split; [intros _; exists s; reflexivity | intros _; destruct s; reflexivity].
  - destruct s as [|y s].
    + split; [discriminate | intros [b Hb]; discriminate].
    + simpl. rewrite andb_true_iff, IH. split.
      * intros [Hxy [b Hb]]. apply Ascii.eqb_eq in Hxy. subst.
        exists b. reflexivity.
      * intros [b Hb]. injection Hb as Hy Hs. subst. split.
        -- apply Ascii.eqb_refl.
        -- exists b. reflexivity.
Qed.

Lemma contains_cons (c : ascii) (s kw : pystr) :
  contains (c :: s) kw = startswith (c :: s) kw || contains s kw.
Proof. reflexivity. Qed.

Lemma contains_nil (kw : pystr) : contains [] kw = startswith [] kw.
Proof. simpl. apply orb_false_r. Qed.

Lemma contains_spec (s kw : pystr) :
  contains s kw = true <-> is_substring kw s.
Proof.
  unfold is_substring. induction s as [|c s IH].
  - rewrite contains_nil, startswith_spec. split.
    + intros [b Hb]. exists [], b. exact Hb.
    + intros [a [b Hb]]. destruct a; [|discriminate]. exists b. exact Hb.
  - rewrite contains_cons, orb_true_iff, startswith_spec, IH. split.
    + intros [[b Hb] | [a [b Hb]]].
      * exists [], b. exact Hb.
      * exists (c :: a), b. simpl. f_equal. exact Hb.
    + intros [a [b Hb]]. destruct a as [|x a].
      * left. exists b. exact Hb.
      * right. injection Hb as _ Hs. exists a, b. exact Hs.
Qed.

Lemma mentions_disclaimer_spec (line : pystr) :
  mentions_disclaimer line = true <->
  exists kw, In kw disclaimer_keywords /\ is_substring kw (strip (lower line)).
Proof.
  unfold mentions_disclaimer. cbv zeta. rewrite existsb_exists.
  split; intros [kw [Hin Hkw]]; exists kw; split; try exact Hin;
    apply contains_spec; exact Hkw.
Qed.

(** C7. When every line of the input, lower-cased and trimmed, contains
    one of the four marker substrings, the result is the empty string;
    this holds for every such input, multi-line inputs included. *)
Theorem remove_disclaimers_all_lines_marked (text : pystr) :
  (forall line, In line (splitlines text) ->
     exists kw, In kw disclaimer_keywords /\
                is_substring kw (strip (lower line))) ->
  remove_disclaimers_and_mentions text = [].
Proof.
  intros Hall. unfold remove_disclaimers_and_mentions. cbv zeta.
  replace (filter _ (splitlines text)) with (@nil pystr); [reflexivity|].
  symmetry. induction (splitlines text) as [|l ls IH]; [reflexivity|].
  simpl. assert (Hl : mentions_disclaimer l = true).
  { apply mentions_disclaimer_spec, Hall. left. reflexivity. }
  rewrite Hl. simpl. apply IH. intros line Hin. apply Hall. right. exact Hin.
Qed.

Lemma remove_disclaimers_all_lines_marked_witness :
  length (splitlines three_disclaimer_lines) = 3 /\
  (forall line, In line (splitlines three_disclaimer_lines) ->
     exists kw, In kw disclaimer_keywords /\
                is_substring kw (strip (lower line))) /\
  remove_disclaimers_and_mentions three_disclaimer_lines = [].
Proof.
  assert (Hall : forall line, In line (splitlines three_disclaimer_lines) ->
            exists kw, In kw disclaimer_keywords /\
                       is_substring kw (strip (lower line))).
  { intros line Hin. apply mentions_disclaimer_spec. vm_compute in Hin.
    destruct Hin as [H|[H|[H|[]]]]; subst line; reflexivity. }
  split; [reflexivity|]. split; [exact Hall|].
  apply (remove_disclaimers_all_lines_marked three_disclaimer_lines Hall).
Defined.

(** ** Whitespace normal form *)

Lemma lstrip_snoc (x : pystr) (c : ascii) :
  lstrip (x ++ [c]) =
  match lstrip x with
  | [] => if is_space c then [] else [c]
  | l => l ++ [c]
  end.
Proof.
  induction x as [|d x IH]; simpl.
  - destruct (is_space c); reflexivity.
  - destruct (is_space d); [exact IH | reflexivity].
Qed.

Lemma rstrip_cons (c : ascii) (s : pystr) :
  rstrip (c :: s) =
  match rstrip s with
  | [] => if is_space c then [] else [c]
  | r => c :: r
  end.
Proof.
  unfold rstrip. simpl rev. rewrite lstrip_snoc.
  destruct (lstrip (rev s)) as [|d l] eqn:E.
  - simpl. destruct (is_space c); reflexivity.
  - rewrite rev_app_distr. change (rev [c]) with [c].
    destruct (rev (d :: l)) eqn:R; [|reflexivity].
    apply (f_equal (@length ascii)) in R. rewrite length_rev in R. discriminate.
Qed.

Lemma lstrip_clean (s : pystr) : starts_clean s = true -> lstrip s = s.
Proof.
  destruct s as [|c s]; simpl; [reflexivity|].
  destruct (is_space c); [discriminate | reflexivity].
Qed.

Lemma starts_clean_lstrip (s : pystr) : starts_clean (lstrip s) = true.
Proof.
  induction s as [|c s IH]; simpl; [reflexivity|].
  destruct (is_space c) eqn:E; [exact IH | simpl; rewrite E; reflexivity].
Qed.

Lemma rstrip_clean (s : pystr) : ends_clean s = true -> rstrip s = s.
Proof.
  unfold ends_clean, rstrip. intros H.
  rewrite lstrip_clean by exact H. apply rev_involutive.
Qed.

Lemma ends_clean_rstrip (s : pystr) : ends_clean (rstrip s) = true.
Proof.
  unfold ends_clean, rstrip. rewrite rev_involutive. apply starts_clean_lstrip.
Qed.

Lemma starts_clean_rstrip (s : pystr) :
  starts_clean s = true -> starts_clean (rstrip s) = true.
Proof.
  destruct s as [|c s]; [reflexivity|]. simpl. intros H.
  rewrite rstrip_cons. destruct (rstrip s).
  - destruct (is_space c) eqn:E; [discriminate | simpl; rewrite E; reflexivity].
  - simpl. exact H.
Qed.

Lemma starts_clean_app_l (a b : pystr) :
  starts_clean (a ++ b) = true -> starts_clean a = true.
Proof. destruct a; [reflexivity | simpl; trivial]. Qed.

Lemma single_spaced_app (a b : pystr) :
  single_spaced (a ++ b) = true ->
  single_spaced a = true /\ single_spaced b = true.
Proof.
  induction a as [|c a IH]; simpl.
  - intros H. split; [reflexivity | exact H].
  - rewrite !andb_true_iff. intros [Hc Hrest].
    destruct (IH Hrest) as [Ha Hb]. repeat split; try assumption.
    destruct (is_space c); [|reflexivity].
    rewrite andb_true_iff in *. destruct Hc as [H1 H2].
    split; [exact H1 | eapply starts_clean_app_l; exact H2].
Qed.

Lemma single_spaced_snoc (s : pystr) (d : ascii) :
  is_space d = false -> single_spaced s = true ->
  single_spaced (s ++ [d]) = true.
Proof.
  intros Hd. induction s as [|c s IH]; simpl.
  - rewrite Hd. reflexivity.
  - rewrite !andb_true_iff. intros [Hc Hrest]. split; [|apply IH, Hrest].
    destruct (is_space c); [|reflexivity].
    rewrite andb_true_iff in *. destruct Hc as [H1 H2]. split; [exact H1|].
    destruct s; simpl; [rewrite Hd; reflexivity | exact H2].
Qed.

Lemma single_spaced_lstrip (s : pystr) :
  single_spaced s = true -> single_spaced (lstrip s) = true.
Proof.
  intros H. destruct (lstrip_decompose s) as [w [Hs _]].
  rewrite Hs in H. apply single_spaced_app in H. apply H.
Qed.

Lemma single_spaced_rstrip (s : pystr) :
  single_spaced s = true -> single_spaced (rstrip s) = true.
Proof.
  intros H. destruct (rstrip_decompose s) as [w [Hs _]].
  rewrite Hs in H. apply single_spaced_app in H. apply H.
Qed.

Lemma sub_ws_from_spaced (b : bool) (s : pystr) :
  single_spaced (sub_ws_from b s) = true /\
  (b = true -> starts_clean (sub_ws_from b s) = true).
Proof.
  revert b. induction s as [|c s IH]; intros b; simpl.
  - split; reflexivity.
  - destruct (is_space c) eqn:Hc.
    + destruct b.
      * apply IH.
      * destruct (IH true) as [H1 H2]. split; [|discriminate].
        simpl. rewrite H1, H2 by reflexivity. reflexivity.
    + destruct (IH false) as [H1 _]. split.
      * simpl. rewrite Hc, H1. reflexivity.
      * intros _. simpl. rewrite Hc. reflexivity.
Qed.

Lemma sub_ws_from_fixed (s : pystr) :
  single_spaced s = true ->
  forall b, (b = true -> starts_clean s = true) -> sub_ws_from b s = s.
Proof.
  induction s as [|c s IH]; intros Hs b Hb; [reflexivity|].
  simpl in Hs. apply andb_true_iff in Hs. destruct Hs as [Hc Hrest].
  simpl. destruct (is_space c) eqn:E.
  - apply andb_true_iff in Hc. destruct Hc as [Heq Hnext].
    apply Ascii.eqb_eq in Heq. subst c.
    destruct b.
    + specialize (Hb eq_refl). simpl in Hb. discriminate.
    + f_equal. apply IH; [exact Hrest | intros _; exact Hnext].
  - f_equal. apply IH; [exact Hrest | discriminate].
Qed.

Lemma strip_tidy (s : pystr) : single_spaced s = true -> Tidy (strip s).
Proof.
  intros H. unfold strip. split.
  - apply single_spaced_rstrip, single_spaced_lstrip, H.
  - apply starts_clean_rstrip, starts_clean_lstrip.
  - apply ends_clean_rstrip.
Qed.

Lemma normalize_tidy (paragraph : pystr) : Tidy (strip (sub_ws paragraph)).
Proof. apply strip_tidy, sub_ws_from_spaced. Qed.

Lemma tidy_sub_ws (s : pystr) : Tidy s -> sub_ws s = s.
Proof.
  intros [H1 H2 _]. apply sub_ws_from_fixed; [exact H1 | discriminate].
Qed.

Lemma tidy_strip (s : pystr) : Tidy s -> strip s = s.
Proof.
  intros [_ H2 H3]. unfold strip.
  rewrite (lstrip_clean _ H2). apply rstrip_clean, H3.
Qed.

Lemma strip_bullet_points_tidy (text : pystr) :
  Tidy (strip_bullet_points text).
Proof. apply normalize_tidy. Qed.

Lemma tidy_truncated (s : pystr) (b : Z) :
  Tidy s -> Tidy (rstrip (slice_to s b)).
Proof.
  intros [H1 H2 _]. destruct (slice_to_prefix s b) as [r Hr].
  rewrite Hr in H1, H2. split.
  - apply single_spaced_rstrip. apply single_spaced_app in H1. apply H1.
  - apply starts_clean_rstrip. eapply starts_clean_app_l. exact H2.
  - apply ends_clean_rstrip.
Qed.

Lemma tidy_snoc (s : pystr) (d : ascii) :
  is_space d = false -> Tidy s -> Tidy (s ++ [d]).
Proof.
  intros Hd [H1 H2 _]. split.
  - apply single_spaced_snoc; assumption.
  - destruct s; simpl; [rewrite Hd; reflexivity | exact H2].
  - unfold ends_clean. rewrite rev_app_distr. simpl. rewrite Hd. reflexivity.
Qed.

Lemma enforce_character_limit_tidy (text : pystr) (b : Z) :
  Tidy text -> Tidy (enforce_character_limit text b).
Proof.
  intros H. unfold enforce_character_limit.
  destruct (len text <=? b)%Z; [exact H|]. cbv zeta.
  pose proof (tidy_truncated text b H) as Ht.
  destruct (negb _); [|exact Ht].
  apply tidy_snoc; [reflexivity | exact Ht].
Qed.

(** ** The pipeline *)

Lemma llama_run_eq (ollama : Service) (model_name prompt : pystr) (w : World) :
  llama_run ollama model_name prompt w =
  let result := ollama (invocations w) (model_name, prompt) in
  if (returncode result =? 0)%Z
  then (Returned (strip (stdout result)), logged w (model_name, prompt))
  else (Exited 1,
        complained (logged w (model_name, prompt))
          (str "Error running ollama command: " ++ stderr result)).
Proof.
  unfold llama_run, bind, subprocess_run. cbv zeta.
  destruct (returncode _ =? 0)%Z; reflexivity.
Qed.

(** The pipeline written out: one invocation, the gate, and at most one
    more invocation. *)
Lemma summarize_eq (ollama : Service) (text : pystr) (max_chars : Z)
    (model_name : pystr) (w : World) :
  summarize_text_with_llama ollama text max_chars model_name w =
  let call_1 := (model_name, prompt_1 text max_chars) in
  let result_1 := ollama (invocations w) call_1 in
  let w1 := logged w call_1 in
  if (returncode result_1 =? 0)%Z then
    let pass_one_cleaned :=
      remove_disclaimers_and_mentions (strip (stdout result_1)) in
    if search_marker pass_one_cleaned then
      let call_2 := (model_name, prompt_2 pass_one_cleaned max_chars) in
      let result_2 := ollama (invocations w1) call_2 in
      if (returncode result_2 =? 0)%Z then
        (Returned
           (enforce_character_limit
              (strip_bullet_points
                 (remove_disclaimers_and_mentions (strip (stdout result_2))))
              max_chars),
         logged w1 call_2)
      else (Exited 1,
            complained (logged w1 call_2)
              (str "Error running ollama command: " ++ stderr result_2))
    else
      (Returned
         (enforce_character_limit (strip_bullet_points pass_one_cleaned)
            max_chars),
       w1)
  else (Exited 1,
        complained w1 (str "Error running ollama command: " ++ stderr result_1)).
Proof.
  unfold summarize_text_with_llama, pass_one_summary, pass_two_rewrite.
  unfold bind at 1 2. rewrite llama_run_eq. cbv zeta.
  destruct (returncode _ =? 0)%Z; [|reflexivity].
  unfold ret at 1. 
  destruct (search_marker _); [|reflexivity].
  unfold bind. rewrite llama_run_eq. cbv zeta.
  destruct (returncode _ =? 0)%Z; reflexivity.
Qed.

Lemma calls_made_eq (ollama : Service) (text : pystr) (max_chars : Z)
    (model_name : pystr) (w : World) :
  calls_made ollama text max_chars model_name w =
  if (returncode (first_result ollama text max_chars model_name w) =? 0)%Z
  then if search_marker
            (remove_disclaimers_and_mentions
               (first_pass_of ollama text max_chars model_name w))
       then 2 else 1
  else 1.
Proof.
  unfold calls_made, first_pass_of, first_result. rewrite summarize_eq. cbv zeta.
  destruct (returncode _ =? 0)%Z.
  - destruct (search_marker _).
    + destruct (returncode _ =? 0)%Z; simpl; rewrite !length_app; simpl; lia.
    + simpl. rewrite length_app. simpl. lia.
  - simpl. rewrite length_app. simpl. lia.
Qed.

(** ** The gate [re.search(r"(\*|-|\d+\.)", ...)] *)

Lemma digit_run_last (s : pystr) (k : nat) :
  digit_run s = S k ->
  exists a d, is_digit d = true /\ firstn (S k) s = a ++ [d].
Proof.
  revert k. induction s as [|c s IH]; intros k; simpl; [discriminate|].
  destruct (is_digit c) eqn:Hc; [|discriminate].
  intros H. injection H as H. destruct k as [|k].
  - exists [], c. split; [exact Hc | reflexivity].
  - destruct (IH k H) as [a [d [Hd Ha]]].
    exists (c :: a), d. split; [exact Hd|].
    change (firstn (S (S k)) (c :: s)) with (c :: firstn (S k) s).
    rewrite Ha. reflexivity.
Qed.

Lemma match_run_some (close : ascii) (s : pystr) (n : nat) :
  match_run close s = Some n ->
  exists k r, digit_run s = S k /\ skipn (S k) s = close :: r /\ n = S k + 1.
Proof.
  unfold match_run. destruct (digit_run s) as [|k] eqn:E; [discriminate|].
  destruct (skipn (S k) s) as [|d r] eqn:R; [discriminate|].
  destruct (Ascii.eqb d close) eqn:D; [|discriminate].
  apply Ascii.eqb_eq in D. subst d. intros H. injection H as H.
  exists k, r. repeat split; try assumption; try reflexivity; lia.
Qed.

Lemma match_run_shape (close : ascii) (s : pystr) (n : nat) :
  match_run close s = Some n ->
  exists a d b, is_digit d = true /\ s = a ++ d :: close :: b.
Proof.
  intros H. destruct (match_run_some _ _ _ H) as [k [r [Hk [Hr _]]]].
  destruct (digit_run_last _ _ Hk) as [a [d [Hd Ha]]].
  exists a, d, r. split; [exact Hd|].
  rewrite <- (firstn_skipn (S k) s), Ha, Hr, <- app_assoc. reflexivity.
Qed.

Lemma match_run_digit_close (close d : ascii) (b : pystr) :
  is_digit d = true -> is_digit close = false ->
  match_run close (d :: close :: b) = Some 2.
Proof.
  intros Hd Hc. unfold match_run. simpl. rewrite Hd, Hc. simpl.
  rewrite Ascii.eqb_refl. reflexivity.
Qed.

Lemma search_marker_cons (c : ascii) (s : pystr) :
  search_marker (c :: s) =
  match match_marker (c :: s) with
  | Some _ => true
  | None => search_marker s
  end.
Proof. reflexivity. Qed.

Lemma search_marker_skip (a s : pystr) :
  search_marker s = true -> search_marker (a ++ s) = true.
Proof.
  intros H. induction a as [|c a IH]; [exact H|].
  simpl app. rewrite search_marker_cons.
  destruct (match_marker _); [reflexivity | exact IH].
Qed.

Lemma search_marker_spec (s : pystr) :
  search_marker s = true <-> has_marker s.
Proof.
  split.
  - induction s as [|c s IH]; [discriminate|].
    rewrite search_marker_cons.
    destruct (match_marker (c :: s)) as [n|] eqn:E.
    + intros _. unfold match_marker in E.
      destruct (match_star_or_hyphen (c :: s)) eqn:B.
      * simpl in B. destruct (Ascii.eqb c "*") eqn:B1.
        -- apply Ascii.eqb_eq in B1. subst. left. left. reflexivity.
        -- destruct (Ascii.eqb c "-") eqn:B2; [|discriminate].
           apply Ascii.eqb_eq in B2. subst. right. left. left. reflexivity.
      * simpl in E. right. right. eapply match_run_shape. exact E.
    + intros H. destruct (IH H) as [H1 | [H2 | [a [d [b [Hd Hs]]]]]].
      * left. right. exact H1.
      * right. left. right. exact H2.
      * right. right. exists (c :: a), d, b. split; [exact Hd|].
        rewrite Hs. reflexivity.
  - intros [H | [H | [a [d [b [Hd Hs]]]]]].
    + apply in_split in H. destruct H as [a [b Hs]]. subst s.
      apply search_marker_skip. reflexivity.
    + apply in_split in H. destruct H as [a [b Hs]]. subst s.
      apply search_marker_skip. reflexivity.
    + subst s. apply search_marker_skip. rewrite search_marker_cons.
      unfold match_marker. destruct (match_star_or_hyphen _); [reflexivity|].
      simpl or_else. rewrite match_run_digit_close by (exact Hd || reflexivity).
      reflexivity.
Qed.

(** ** Code points that survive the disclaimer pass *)

Lemma in_lstrip (c : ascii) (s : pystr) :
  is_space c = false -> In c s -> In c (lstrip s).
Proof.
  intros Hc. induction s as [|d s IH]; simpl; [trivial|].
  intros [H|H].
  - subst d. rewrite Hc. left. reflexivity.
  - destruct (is_space d); [apply IH, H | right; exact H].
Qed.

Lemma in_strip (c : ascii) (s : pystr) :
  is_space c = false -> In c s -> In c (strip s).
Proof.
  intros Hc H. unfold strip, rstrip.
  apply (proj1 (in_rev _ _)). apply in_lstrip; [exact Hc|].
  apply (proj1 (in_rev _ _)). apply in_lstrip; assumption.
Qed.

Lemma in_sub_ws_from (c : ascii) (b : bool) (s : pystr) :
  is_space c = false -> In c s -> In c (sub_ws_from b s).
Proof.
  intros Hc. revert b. induction s as [|d s IH]; intros b; simpl; [trivial|].
  intros [H|H].
  - subst d. rewrite Hc. left. reflexivity.
  - destruct (is_space d); [destruct b|]; try right; apply IH, H.
Qed.

Lemma in_join (sep c : pystr) (x : ascii) (parts : list pystr) :
  In c parts -> In x c -> In x (join sep parts).
Proof.
  intros Hc Hx. induction parts as [|p rest IH]; [contradiction|].
  destruct Hc as [Hc|Hc].
  - subst p. destruct rest; simpl; [exact Hx|].
    apply in_or_app. left. exact Hx.
  - specialize (IH Hc). destruct rest as [|q rest]; [contradiction|].
    change (join sep (p :: q :: rest)) with (p ++ sep ++ join sep (q :: rest)).
    apply in_or_app. right. apply in_or_app. right. exact IH.
Qed.

Lemma in_remove_disclaimers (x : ascii) (text line : pystr) :
  is_space x = false ->
  In line (splitlines text) -> mentions_disclaimer line = false ->
  In x line ->
  In x (remove_disclaimers_and_mentions text).
Proof.
  intros Hs Hl Hkeep Hx. unfold remove_disclaimers_and_mentions. cbv zeta.
  apply in_strip; [exact Hs|]. apply in_sub_ws_from; [exact Hs|].
  apply in_join with (c := line); [|exact Hx].
  apply filter_In. split; [exact Hl|]. rewrite Hkeep. reflexivity.
Qed.

(** ** The two-pass trigger *)

(** C2. One run invokes the completion service once or twice.
    When the first invocation succeeds, the second one is made exactly when
    the disclaimer-cleaned first-pass output holds an asterisk, a hyphen or
    a digit directly followed by a period.  In particular a first-pass
    output that contains the two bullet lines leads to a second invocation
    as soon as one of its lines bearing a hyphen mentions no disclaimer
    keyword, and the plain sentence leads to exactly one invocation. *)
Theorem two_pass_trigger (ollama : Service) (text : pystr) (max_chars : Z)
    (model_name : pystr) (w : World) :
  let calls := calls_made ollama text max_chars model_name w in
  let first := first_result ollama text max_chars model_name w in
  let first_pass := first_pass_of ollama text max_chars model_name w in
  1 <= calls <= 2 /\
  (returncode first = 0%Z ->
   (calls = 2 <-> has_marker (remove_disclaimers_and_mentions first_pass)) /\
   (is_substring two_bullets first_pass ->
    (exists line, In line (splitlines first_pass) /\
                  In "-"%char line /\ mentions_disclaimer line = false) ->
    calls = 2) /\
   (first_pass = plain_sentence -> calls = 1)).
Proof.
  cbv zeta. rewrite calls_made_eq.
  set (first := first_result ollama text max_chars model_name w).
  set (first_pass := first_pass_of ollama text max_chars model_name w).
  split.
  - destruct (returncode first =? 0)%Z; [destruct (search_marker _)|]; lia.
  - intros Hok. apply Z.eqb_eq in Hok. rewrite Hok.
    assert (Hgate : forall s, (if search_marker s then 2 else 1) = 2
                              <-> has_marker s).
    { intros s. rewrite <- search_marker_spec.
      destruct (search_marker s); split; (reflexivity || discriminate). }
    split; [apply Hgate|]. split.
    + intros _ [line [Hl [Hx Hkeep]]]. apply Hgate. right. left.
      apply in_remove_disclaimers with (line := line);
        (reflexivity || assumption).
    + intros Hplain. rewrite Hplain. reflexivity.
Qed.

Lemma two_pass_trigger_witness :
  calls_made (scripted [two_bullets; str "One and two."]) article 50
    DEFAULT_MODEL_NAME start = 2 /\
  calls_made (scripted [plain_sentence]) article 50 DEFAULT_MODEL_NAME start = 1.
Proof.
  split.
  - apply (two_pass_trigger (scripted [two_bullets; str "One and two."])
             article 50 DEFAULT_MODEL_NAME start).
    + reflexivity.
    + exists [], []. reflexivity.
    + exists (str "- one"). split; [left; reflexivity|].
      split; [left; reflexivity | reflexivity].
  - apply (two_pass_trigger (scripted [plain_sentence])
             article 50 DEFAULT_MODEL_NAME start); reflexivity.
Defined.

(** The two bullet lines inside disclaimer lines: both lines are dropped,
    the cleaned text is empty and no second invocation is made. *)
Lemma disclaimed_bullets_single_call :
  let ollama := scripted [disclaimed_bullets; str "One and two."] in
  returncode (first_result ollama article 50 DEFAULT_MODEL_NAME start) = 0%Z /\
  is_substring two_bullets
    (first_pass_of ollama article 50 DEFAULT_MODEL_NAME start) /\
  remove_disclaimers_and_mentions
    (first_pass_of ollama article 50 DEFAULT_MODEL_NAME start) = [] /\
  calls_made ollama article 50 DEFAULT_MODEL_NAME start = 1 /\
  calls_made ollama article 50 DEFAULT_MODEL_NAME start <> 2.
Proof.
  cbv zeta. split; [reflexivity|]. split.
  - exists (str "rewrite "), (str " rewrite"). reflexivity.
  - split; [reflexivity|]. split; [reflexivity | discriminate].
Qed.

(** ** The end-to-end example *)

(** C8. With budget 50 and a service that answers first with
    the two bullet lines and then with the rewritten sentence, the gate
    finds bullets, a second invocation is made, and the summary is exactly
    the rewritten sentence: 22 code points, under budget, the candidate
    already ending in a period so that none is appended. *)
Theorem end_to_end_example :
  let ollama := scripted [bulleted_answer; rewritten_answer] in
  search_marker
    (remove_disclaimers_and_mentions
       (first_pass_of ollama article 50 DEFAULT_MODEL_NAME start)) = true /\
  calls_made ollama article 50 DEFAULT_MODEL_NAME start = 2 /\
  fst (summarize_text_with_llama ollama article 50 DEFAULT_MODEL_NAME start)
  = Returned rewritten_answer /\
  len rewritten_answer = 22%Z /\
  (len rewritten_answer <= 50)%Z /\
  strip_bullet_points (remove_disclaimers_and_mentions rewritten_answer)
  = rewritten_answer.
Proof. cbv zeta. repeat split; try reflexivity. discriminate. Qed.

(** The summary of the end-to-end run does not have 38 code points. *)
Lemma end_to_end_length_is_not_38 :
  let ollama := scripted [bulleted_answer; rewritten_answer] in
  fst (summarize_text_with_llama ollama article 50 DEFAULT_MODEL_NAME start)
  = Returned rewritten_answer /\
  len rewritten_answer <> 38%Z.
Proof. cbv zeta. split; [reflexivity | discriminate]. Qed.

(** ** The returned summary is one tidy line *)

Lemma single_spaced_in (s : pystr) (c : ascii) :
  single_spaced s = true -> In c s -> is_space c = true -> c = " "%char.
Proof.
  induction s as [|d s IH]; [contradiction|]. simpl.
  rewrite andb_true_iff. intros [Hd Hrest] [H|H] Hc.
  - subst d. rewrite Hc in Hd. apply andb_true_iff in Hd.
    apply Ascii.eqb_eq, Hd.
  - apply IH; assumption.
Qed.

Lemma tidy_flat (s : pystr) :
  Tidy s -> no_newline s /\ no_whitespace_run s /\ no_outer_whitespace s.
Proof.
  intros [H1 H2 H3]. split; [|split; [|split]].
  - intros Hin. pose proof (single_spaced_in s _ H1 Hin eq_refl). discriminate.
  - intros a c d b Hs [Hc Hd]. rewrite Hs in H1.
    apply single_spaced_app in H1. destruct H1 as [_ H1]. simpl in H1.
    rewrite Hc, Hd in H1. simpl in H1. rewrite andb_false_r in H1.
    discriminate.
  - intros c r Hs. subst s. simpl in H2. apply negb_true_iff, H2.
  - intros r c Hs. subst s. unfold ends_clean in H3.
    rewrite rev_app_distr in H3. simpl in H3. apply negb_true_iff, H3.
Qed.

(** C9. Whatever the budget and whatever the service hands back, a summary
    that the pipeline returns has no newline, no two whitespace code points
    in a row and no whitespace at either end; and the pipeline does return
    a summary whenever the service does not fail. *)
Theorem summary_is_one_tidy_line (ollama : Service) (text : pystr)
    (max_chars : Z) (model_name : pystr) (w : World) :
  (forall summary w',
     summarize_text_with_llama ollama text max_chars model_name w
     = (Returned summary, w') ->
     no_newline summary /\ no_whitespace_run summary /\
     no_outer_whitespace summary) /\
  ((forall earlier call, returncode (ollama earlier call) = 0%Z) ->
   exists summary w',
     summarize_text_with_llama ollama text max_chars model_name w
     = (Returned summary, w')).
Proof.
  rewrite summarize_eq. cbv zeta. split.
  - intros summary w' H. apply tidy_flat.
    destruct (returncode _ =? 0)%Z; [|discriminate].
    destruct (search_marker _).
    + destruct (returncode _ =? 0)%Z; [|discriminate].
      injection H as H _. subst summary.
      apply enforce_character_limit_tidy, strip_bullet_points_tidy.
    + injection H as H _. subst summary.
      apply enforce_character_limit_tidy, strip_bullet_points_tidy.
  - intros Hok. rewrite !Hok. simpl.
    destruct (search_marker _); eexists; eexists; reflexivity.
Qed.

Lemma summary_is_one_tidy_line_witness :
  exists summary,
    fst (summarize_text_with_llama (constant_service bulleted_answer)
           article 20 DEFAULT_MODEL_NAME start) = Returned summary /\
    no_newline summary /\ no_whitespace_run summary /\
    no_outer_whitespace summary.
Proof.
  destruct (summary_is_one_tidy_line (constant_service bulleted_answer)
              article 20 DEFAULT_MODEL_NAME start) as [Hflat Hret].
  destruct (Hret (fun _ _ => eq_refl)) as [summary [w' E]].
  exists summary. split; [rewrite E; reflexivity | exact (Hflat summary w' E)].
Defined.

(** ** re.sub with the bullet pattern *)

Lemma sub_bullet_from_cons (b : bool) (c : ascii) (s : pystr) :
  sub_bullet_from b (c :: s) =
  match bullet_pattern b (c :: s) with
  | Some n => sub_bullet_from false (skipn (pred n) s)
  | None => c :: sub_bullet_from false s
  end.
Proof.
  simp sub_bullet_from. destruct (bullet_pattern b (c :: s)); reflexivity.
Qed.

Lemma sub_bullet_from_length (b : bool) (s : pystr) :
  length (sub_bullet_from b s) <= length s.
Proof.
  funelim (sub_bullet_from b s).
  - reflexivity.
  - rewrite length_skipn in H. simpl. lia.
  - simpl. lia.
Qed.






(** A match removes at least its first code point. *)
Lemma sub_bullet_from_match (b : bool) (s : pystr) (n : nat) :
  bullet_pattern b s = Some n -> length (sub_bullet_from b s) < length s.
Proof.
  destruct s as [|c s]; [destruct b; discriminate|].
  intros H. rewrite sub_bullet_from_cons, H.
  pose proof (sub_bullet_from_length false (skipn (pred n) s)) as L.
  rewrite length_skipn in L. simpl. lia.
Qed.

Lemma then_opt_space_none (m : pystr -> option nat) (s : pystr) :
  then_opt_space m s = None <-> m s = None.
Proof.
  unfold then_opt_space. destruct (m s); split; (reflexivity || discriminate).
Qed.

Lemma bullet_pattern_none_enum (b : bool) (s : pystr) :
  bullet_pattern b s = None -> match_run ")" s = None.
Proof.
  unfold bullet_pattern. intros H. apply then_opt_space_none.
  fold match_enum_paren.
  destruct (if b then match_bullet s else None); [discriminate|].
  simpl in H. destruct (match_enum_paren s); [discriminate | reflexivity].
Qed.

Lemma bullet_pattern_inner (s : pystr) : bullet_pattern false s = match_enum_paren s.
Proof. unfold bullet_pattern. simpl. destruct (match_enum_paren s); reflexivity. Qed.

Lemma match_run_extend (close c : ascii) (s : pystr) (m : nat) :
  is_digit c = true -> match_run close s = Some m ->
  match_run close (c :: s) = Some (S m).
Proof.
  intros Hc H. destruct (match_run_some _ _ _ H) as [k [r [Hk [Hr Hm]]]].
  unfold match_run. simpl digit_run. rewrite Hc, Hk.
  change (skipn (S (S k)) (c :: s)) with (skipn (S k) s). rewrite Hr.
  rewrite Ascii.eqb_refl. f_equal. lia.
Qed.

(** If the output after a copied digit began with a closing parenthesis,
    the pattern would have matched at the digit. *)
Lemma sub_bullet_head_paren (s : pystr) :
  starts_with_paren (sub_bullet_from false s) = true ->
  starts_with_paren s = true \/ exists m, match_run ")" s = Some m.
Proof.
  destruct s as [|e s]; [discriminate|].
  rewrite sub_bullet_from_cons, bullet_pattern_inner.
  unfold match_enum_paren, then_opt_space.
  destruct (match_run ")" (e :: s)) as [m|].
  - intros _. right. exists m. reflexivity.
  - intros H. left. exact H.
Qed.

Lemma sub_bullet_from_free (b : bool) (s : pystr) :
  digit_paren_free (sub_bullet_from b s) = true.
Proof.
  funelim (sub_bullet_from b s).
  - reflexivity.
  - exact H.
  - simpl. rewrite H, andb_true_r. apply negb_true_iff, andb_false_iff.
    destruct (is_digit c) eqn:Hc; [right | left; reflexivity].
    destruct (starts_with_paren (sub_bullet_from false s')) eqn:P;
      [|reflexivity].
    exfalso. apply bullet_pattern_none_enum in Heq.
    destruct (sub_bullet_head_paren _ P) as [Q | [m Q]].
    + destruct s' as [|e s'']; [discriminate|]. simpl in Q.
      apply Ascii.eqb_eq in Q. subst e.
      rewrite match_run_digit_close in Heq by (exact Hc || reflexivity).
      discriminate.
    + rewrite (match_run_extend _ _ _ _ Hc Q) in Heq. discriminate.
Qed.

Lemma starts_with_paren_app (a b : pystr) :
  starts_with_paren (a ++ b) =
  match a with
  | [] => starts_with_paren b
  | _ :: _ => starts_with_paren a
  end.
Proof. destruct a; reflexivity. Qed.

Lemma digit_paren_free_app (a b : pystr) :
  digit_paren_free (a ++ b) = true ->
  digit_paren_free a = true /\ digit_paren_free b = true.
Proof.
  induction a as [|c a IH]; simpl.
  - intros H. split; [reflexivity | exact H].
  - rewrite !andb_true_iff. intros [Hc Hrest].
    destruct (IH Hrest) as [Ha Hb]. repeat split; try assumption.
    rewrite starts_with_paren_app in Hc. destruct a; [|exact Hc].
    simpl. rewrite andb_false_r. reflexivity.
Qed.

Lemma digit_paren_free_glue (p q : pystr) :
  digit_paren_free p = true -> digit_paren_free q = true ->
  starts_with_paren q = false -> digit_paren_free (p ++ q) = true.
Proof.
  intros Hp Hq Hhead. induction p as [|c p IH]; [exact Hq|].
  simpl in *. rewrite andb_true_iff in *. destruct Hp as [Hc Hrest].
  split; [|apply IH, Hrest].
  rewrite starts_with_paren_app. destruct p; [|exact Hc].
  rewrite Hhead, andb_false_r. reflexivity.
Qed.

Lemma digit_paren_free_join (parts : list pystr) :
  (forall p, In p parts -> digit_paren_free p = true) ->
  digit_paren_free (join (str " ") parts) = true.
Proof.
  induction parts as [|p rest IH]; intros H; [reflexivity|].
  destruct rest as [|q rest].
  - apply H. left. reflexivity.
  - change (join (str " ") (p :: q :: rest))
      with (p ++ " "%char :: join (str " ") (q :: rest)).
    apply digit_paren_free_glue.
    + apply H. left. reflexivity.
    + change (digit_paren_free (" "%char :: ?s)) with (digit_paren_free s).
      apply IH. intros x Hx. apply H. right. exact Hx.
    + reflexivity.
Qed.

Lemma digit_paren_free_sub_ws (b : bool) (s : pystr) :
  digit_paren_free s = true -> digit_paren_free (sub_ws_from b s) = true.
Proof.
  revert b. induction s as [|c s IH]; intros b; [reflexivity|].
  simpl. rewrite andb_true_iff. intros [Hc Hrest].
  destruct (is_space c) eqn:Sc.
  - destruct b; [apply IH, Hrest|].
    change (digit_paren_free (" "%char :: ?t)) with (digit_paren_free t).
    apply IH, Hrest.
  - simpl. rewrite (IH false Hrest), andb_true_r.
    apply negb_true_iff, andb_false_iff.
    destruct (is_digit c); [right | left; reflexivity].
    simpl in Hc. destruct s as [|e s]; [reflexivity|].
    simpl in Hc |- *. destruct (is_space e) eqn:Se.
    + reflexivity.
    + simpl. apply negb_true_iff, Hc.
Qed.

Lemma digit_paren_free_strip (s : pystr) :
  digit_paren_free s = true -> digit_paren_free (strip s) = true.
Proof.
  intros H. unfold strip.
  destruct (lstrip_decompose s) as [w [Hs _]]. rewrite Hs in H.
  apply digit_paren_free_app in H. destruct H as [_ H].
  destruct (rstrip_decompose (lstrip s)) as [v [Hv _]]. rewrite Hv in H.
  apply digit_paren_free_app in H. apply H.
Qed.

Lemma bullet_cleaned_lines_origin (text line : pystr) :
  In line (bullet_cleaned_lines text) ->
  line <> [] /\
  exists src, In src (splitlines text) /\ line = sub_bullet (strip src).
Proof.
  unfold bullet_cleaned_lines. rewrite filter_In, in_map_iff.
  intros [[src [Hsrc Hin]] Hne]. split.
  - intros E. subst line. rewrite E in Hne. discriminate.
  - exists src. split; [exact Hin | symmetry; exact Hsrc].
Qed.

Lemma strip_bullet_points_free (text : pystr) :
  digit_paren_free (strip_bullet_points text) = true.
Proof.
  unfold strip_bullet_points. cbv zeta.
  apply digit_paren_free_strip, digit_paren_free_sub_ws, digit_paren_free_join.
  intros p Hp. apply bullet_cleaned_lines_origin in Hp.
  destruct Hp as [_ [src [_ Hp]]]. subst p. apply sub_bullet_from_free.
Qed.

Lemma digit_paren_free_no_match (s : pystr) :
  digit_paren_free s = true -> match_run ")" s = None.
Proof.
  intros H. destruct (match_run ")" s) as [n|] eqn:E; [|reflexivity].
  destruct (match_run_shape _ _ _ E) as [a [d [b [Hd Hs]]]]. subst s.
  apply digit_paren_free_app in H. destruct H as [_ H].
  simpl in H. rewrite Hd in H. discriminate.
Qed.

Lemma sub_bullet_from_fixed (s : pystr) :
  digit_paren_free s = true -> sub_bullet_from false s = s.
Proof.
  induction s as [|c s IH]; intros H; [reflexivity|].
  rewrite sub_bullet_from_cons, bullet_pattern_inner.
  unfold match_enum_paren, then_opt_space.
  rewrite (digit_paren_free_no_match _ H).
  f_equal. apply IH. simpl in H. apply andb_true_iff in H. apply H.
Qed.

Lemma sub_bullet_fixed (s : pystr) :
  digit_paren_free s = true -> begins_with_marker s = false ->
  sub_bullet s = s.
Proof.
  intros Hfree Hhead. unfold sub_bullet. destruct s as [|c s]; [reflexivity|].
  rewrite sub_bullet_from_cons. unfold begins_with_marker in Hhead.
  destruct (bullet_pattern true (c :: s)); [discriminate|].
  f_equal. apply sub_bullet_from_fixed.
  simpl in Hfree. apply andb_true_iff in Hfree. apply Hfree.
Qed.

Lemma linebreak_is_space (c : ascii) :
  is_linebreak c = true -> is_space c = true.
Proof.
  destruct c as [[|] [|] [|] [|] [|] [|] [|] [|]]; vm_compute;
    intros H; (reflexivity || discriminate H).
Qed.

Lemma tidy_no_linebreak (s : pystr) (c : ascii) :
  Tidy s -> In c s -> is_linebreak c = false.
Proof.
  intros [H _ _] Hin. destruct (is_linebreak c) eqn:E; [|reflexivity].
  pose proof (single_spaced_in s c H Hin (linebreak_is_space c E)) as Hc.
  subst c. discriminate.
Qed.

Lemma splitlines_single (s : pystr) :
  (forall c, In c s -> is_linebreak c = false) -> s <> [] ->
  splitlines s = [s].
Proof.
  induction s as [|c s IH]; intros Hfree Hne; [contradiction Hne; reflexivity|].
  simpl. rewrite (Hfree c (or_introl eq_refl)).
  destruct s as [|d s]; [reflexivity|].
  rewrite IH; [reflexivity | | discriminate].
  intros x Hx. apply Hfree. right. exact Hx.
Qed.

(** C4, for results that carry no leading marker.  A second application
    changes nothing whenever the result of the first application does not
    itself begin with a marker of the recognised set. *)
Theorem strip_bullet_points_idempotent_on_clean (text : pystr) :
  begins_with_marker (strip_bullet_points text) = false ->
  strip_bullet_points (strip_bullet_points text) = strip_bullet_points text.
Proof.
  intros Hhead.
  pose proof (strip_bullet_points_tidy text) as Htidy.
  pose proof (strip_bullet_points_free text) as Hfree.
  set (once := strip_bullet_points text) in *.
  destruct once as [|c rest] eqn:E; [reflexivity|]. rewrite <- E in *.
  assert (Hne : once <> []) by (rewrite E; discriminate).
  unfold strip_bullet_points at 1, bullet_cleaned_lines. cbv zeta.
  rewrite splitlines_single;
    [| intros x Hx; eapply tidy_no_linebreak; eassumption | exact Hne].
  simpl map. rewrite (tidy_strip _ Htidy), (sub_bullet_fixed _ Hfree Hhead).
  simpl filter. replace (nonempty once) with true by (rewrite E; reflexivity).
  simpl join. rewrite (tidy_sub_ws _ Htidy). apply tidy_strip, Htidy.
Qed.

Lemma strip_bullet_points_idempotent_on_clean_witness :
  begins_with_marker (strip_bullet_points (str "* first item")) = false /\
  strip_bullet_points (strip_bullet_points (str "* first item"))
  = strip_bullet_points (str "* first item").
Proof.
  split; [reflexivity|].
  apply (strip_bullet_points_idempotent_on_clean (str "* first item")).
  reflexivity.
Defined.

(** Two markers in a row: the first application removes one of them, the
    second application removes the other. *)
Lemma repeated_marker_second_pass_differs :
  strip_bullet_points (str "- - a") = str "- a" /\
  strip_bullet_points (strip_bullet_points (str "- - a")) = str "a" /\
  strip_bullet_points (strip_bullet_points (str "- - a"))
  <> strip_bullet_points (str "- - a").
Proof. repeat split. discriminate. Qed.

(** C3. Enumeration markers in the middle of a line are not left in
    place: in the one-line input below both [1) ] and [2) ] are deleted,
    although neither stands at the start of the line. *)
Theorem strip_bullet_points_mid_line_removed :
  begins_with_marker (str "a 1) b 2) c") = false /\
  sub_bullet (str "a 1) b 2) c") = str "a b c" /\
  strip_bullet_points (str "a 1) b 2) c") = str "a b c".
Proof. repeat split. Qed.


















(** * Further properties of the text normalizer *)

(** ** enforce_character_limit, every budget *)

Lemma slice_to_len (s : pystr) (b : Z) :
  len (slice_to s b) =
  if (b <? 0)%Z then Z.max 0 (b + len s) else Z.min b (len s).
Proof.
  unfold slice_to, len. rewrite length_firstn.
  destruct (b <? 0)%Z eqn:E.
  - apply Z.ltb_lt in E. lia.
  - apply Z.ltb_ge in E. lia.
Qed.

Lemma startswith_nil (s : pystr) : startswith s [] = true.
Proof. destruct s; reflexivity. Qed.

Lemma endswith_snoc (s : pystr) (c : ascii) : endswith (s ++ [c]) [c] = true.
Proof.
  unfold endswith. rewrite rev_app_distr. simpl.
  rewrite Ascii.eqb_refl. apply startswith_nil.
Qed.

(** X1. For every budget, negative ones included, the result is cut from
    the front of the text: it is a prefix of the text, or such a prefix
    followed by one period. *)
Theorem enforce_character_limit_prefix (text : pystr) (b : Z) :
  exists p r, text = p ++ r /\ maybe_period p (enforce_character_limit text b).
Proof.
  unfold enforce_character_limit.
  destruct (len text <=? b)%Z.
  - exists text, []. split; [symmetry; apply app_nil_r | left; reflexivity].
  - destruct (slice_to_prefix text b) as [r Hr].
    destruct (rstrip_decompose (slice_to text b)) as [v [Hv _]].
    exists (rstrip (slice_to text b)), (v ++ r). split.
    + rewrite app_assoc, <- Hv. exact Hr.
    + cbv zeta. destruct (negb _); [right | left]; reflexivity.
Qed.

(** X2. Whenever the text is longer than the budget, the result ends with
    a period. *)
Theorem enforce_character_limit_truncated_period (text : pystr) (b : Z) :
  (len text > b)%Z ->
  endswith (enforce_character_limit text b) (str ".") = true.
Proof.
  intros H. rewrite (enforce_beyond _ _ H).
  destruct (endswith (rstrip (slice_to text b)) (str ".")) eqn:E.
  - exact E.
  - apply endswith_snoc.
Qed.

Lemma enforce_character_limit_truncated_period_witness :
  (len (str "hello world") > 6)%Z /\
  endswith (enforce_character_limit (str "hello world") 6) (str ".") = true.
Proof.
  split; [reflexivity|].
  apply (enforce_character_limit_truncated_period (str "hello world") 6).
  reflexivity.
Defined.

(** X3. The result is never longer than the text, except that the empty
    text under a negative budget becomes a single period. *)
Theorem enforce_character_limit_never_longer (text : pystr) (b : Z) :
  ((0 <= b)%Z \/ text <> [] ->
   (len (enforce_character_limit text b) <= len text)%Z) /\
  ((b < 0)%Z -> enforce_character_limit [] b = str ".").
Proof.
  split.
  - intros Hcase. destruct (Z_le_gt_dec (len text) b) as [E|E].
    + rewrite (enforce_within _ _ E). lia.
    + rewrite (enforce_beyond _ _ E).
      pose proof (rstrip_length (slice_to text b)) as Hr.
      pose proof (slice_to_len text b) as Hs.
      assert (Hlt : (len (slice_to text b) < len text)%Z).
      { rewrite Hs. destruct (b <? 0)%Z eqn:B.
        - apply Z.ltb_lt in B. destruct Hcase as [Hb|Hne]; [lia|].
          destruct text; [contradiction Hne; reflexivity|].
          unfold len. simpl length. lia.
        - lia. }
      destruct (endswith _ _); [|rewrite len_app; change (len (str ".")) with 1%Z];
        unfold len in *; lia.
  - intros Hb. rewrite enforce_beyond by (unfold len; simpl; lia).
    unfold slice_to. rewrite firstn_nil. reflexivity.
Qed.

Lemma enforce_character_limit_never_longer_witness :
  (len (enforce_character_limit (str "hello world") (-3)) <= len (str "hello world"))%Z /\
  enforce_character_limit [] (-3) = str ".".
Proof.
  destruct (enforce_character_limit_never_longer (str "hello world") (-3))
    as [H1 _].
  destruct (enforce_character_limit_never_longer [] (-3)) as [_ H2].
  split; [apply H1; right; discriminate | apply H2; reflexivity].
Defined.

(** X4. With budget 0 the empty text is returned as it is and every other
    text becomes a single period. *)
Theorem enforce_character_limit_zero_budget (text : pystr) :
  enforce_character_limit text 0 = if nonempty text then str "." else [].
Proof.
  destruct text as [|c text]; [reflexivity|].
  apply (enforce_zero_budget (c :: text)). discriminate.
Qed.

(** ** remove_disclaimers_and_mentions *)

(** X5. Whatever the input, the result has no newline, no two whitespace
    code points in a row and no whitespace at either end. *)
Theorem remove_disclaimers_flat (text : pystr) :
  no_newline (remove_disclaimers_and_mentions text) /\
  no_whitespace_run (remove_disclaimers_and_mentions text) /\
  no_outer_whitespace (remove_disclaimers_and_mentions text).
Proof. apply tidy_flat, normalize_tidy. Qed.

Lemma remove_disclaimers_on_tidy (t : pystr) :
  Tidy t ->
  remove_disclaimers_and_mentions t = if mentions_disclaimer t then [] else t.
Proof.
  intros Ht. destruct t as [|c r] eqn:E.
  - destruct (mentions_disclaimer []); reflexivity.
  - rewrite <- E in *. unfold remove_disclaimers_and_mentions. cbv zeta.
    rewrite splitlines_single;
      [| intros x Hx; eapply tidy_no_linebreak; eassumption
       | rewrite E; discriminate].
    simpl filter. destruct (mentions_disclaimer t); [reflexivity|].
    simpl. rewrite (tidy_sub_ws _ Ht). apply tidy_strip, Ht.
Qed.

(** X6. A second application either changes nothing or wipes the text: the
    result of the first application is one line, and that line is dropped
    as a whole when the join has brought a keyword together. *)
Theorem remove_disclaimers_twice (text : pystr) :
  let once := remove_disclaimers_and_mentions text in
  remove_disclaimers_and_mentions once =
  if mentions_disclaimer once then [] else once.
Proof. cbv zeta. apply remove_disclaimers_on_tidy, normalize_tidy. Qed.

(** The keyword of X6 brought together by the join: neither line mentions
    a keyword, the joined line does. *)
Lemma remove_disclaimers_twice_wipes :
  remove_disclaimers_and_mentions (str "the" ++ LF ++ str "article")
  = str "the article" /\
  remove_disclaimers_and_mentions
    (remove_disclaimers_and_mentions (str "the" ++ LF ++ str "article")) = [].
Proof. split; reflexivity. Qed.

Lemma in_lstrip_inv (c : ascii) (s : pystr) : In c (lstrip s) -> In c s.
Proof.
  intros H. destruct (lstrip_decompose s) as [w [Hs _]].
  rewrite Hs. apply in_or_app. right. exact H.
Qed.

Lemma in_rstrip_inv (c : ascii) (s : pystr) : In c (rstrip s) -> In c s.
Proof.
  intros H. destruct (rstrip_decompose s) as [w [Hs _]].
  rewrite Hs. apply in_or_app. left. exact H.
Qed.

Lemma in_strip_inv (c : ascii) (s : pystr) : In c (strip s) -> In c s.
Proof. intros H. apply in_lstrip_inv, in_rstrip_inv, H. Qed.

Lemma in_sub_ws_from_inv (c : ascii) (b : bool) (s : pystr) :
  In c (sub_ws_from b s) -> c = " "%char \/ In c s.
Proof.
  revert b. induction s as [|d s IH]; intros b; simpl; [contradiction|].
  destruct (is_space d).
  - destruct b.
    + intros H. destruct (IH _ H); [left | right; right]; assumption.
    + intros [H|H]; [left; symmetry; exact H|].
      destruct (IH _ H); [left | right; right]; assumption.
  - intros [H|H]; [right; left; exact H|].
    destruct (IH _ H); [left | right; right]; assumption.
Qed.

Lemma in_join_inv (sep : pystr) (x : ascii) (parts : list pystr) :
  In x (join sep parts) ->
  In x sep \/ exists p, In p parts /\ In x p.
Proof.
  induction parts as [|p rest IH]; [contradiction|].
  destruct rest as [|q rest].
  - intros H. right. exists p. split; [left; reflexivity | exact H].
  - change (join sep (p :: q :: rest)) with (p ++ sep ++ join sep (q :: rest)).
    intros H. apply in_app_or in H. destruct H as [H|H].
    + right. exists p. split; [left; reflexivity | exact H].
    + apply in_app_or in H. destruct H as [H|H]; [left; exact H|].
      destruct (IH H) as [Hs | [p' [Hp Hx]]]; [left; exact Hs|].
      right. exists p'. split; [right; exact Hp | exact Hx].
Qed.

Lemma in_splitlines_inv_bounded (x : ascii) (n : nat) :
  forall s line,
    length s <= n -> In line (splitlines s) -> In x line -> In x s.
Proof.
  induction n as [|n IH]; intros s line Hn.
  - destruct s; [contradiction | simpl in Hn; lia].
  - destruct s as [|c s]; [contradiction|]. simpl in Hn.
    simpl splitlines. destruct (is_linebreak c).
    + intros [H|H] Hx; [subst line; contradiction|]. right.
      destruct s as [|d s']; [contradiction|]. simpl in Hn.
      destruct (Ascii.eqb c "013" && Ascii.eqb d "010").
      * right. apply (IH s' line); [lia | exact H | exact Hx].
      * apply (IH (d :: s') line); [simpl; lia | exact H | exact Hx].
    + destruct (splitlines s) as [|l ls] eqn:E.
      * intros [H|[]] Hx. subst line. destruct Hx as [Hx|[]]. left. exact Hx.
      * intros [H|H] Hx.
        -- subst line. destruct Hx as [Hx|Hx]; [left; exact Hx|]. right.
           apply (IH s l); [lia | rewrite E; left; reflexivity | exact Hx].
        -- right. apply (IH s line); [lia | rewrite E; right; exact H | exact Hx].
Qed.

Lemma in_splitlines_inv (x : ascii) (s line : pystr) :
  In line (splitlines s) -> In x line -> In x s.
Proof. apply (in_splitlines_inv_bounded x (length s)). apply Nat.le_refl. Qed.

Lemma in_remove_disclaimers_inv (text : pystr) (c : ascii) :
  In c (remove_disclaimers_and_mentions text) -> c = " "%char \/ In c text.
Proof.
  unfold remove_disclaimers_and_mentions. cbv zeta. intros H.
  apply in_strip_inv, in_sub_ws_from_inv in H.
  destruct H as [H|H]; [left; exact H|].
  apply in_join_inv in H. destruct H as [[H|[]] | [p [Hp Hx]]].
  - left. symmetry. exact H.
  - right. apply filter_In in Hp. destruct Hp as [Hp _].
    eapply in_splitlines_inv; eassumption.
Qed.

(** X7. Nothing is invented: every code point of the result is a blank or
    a code point of the input. *)
Theorem remove_disclaimers_no_new_content (text : pystr) (c : ascii) :
  In c (remove_disclaimers_and_mentions text) -> c = " "%char \/ In c text.
Proof. apply in_remove_disclaimers_inv. Qed.

Lemma remove_disclaimers_no_new_content_witness :
  In "k"%char (remove_disclaimers_and_mentions (str " keep   me ")) /\
  ("k"%char = " "%char \/ In "k"%char (str " keep   me ")).
Proof.
  assert (H : In "k"%char (remove_disclaimers_and_mentions (str " keep   me ")))
    by (left; reflexivity).
  split; [exact H|].
  apply (remove_disclaimers_no_new_content (str " keep   me ") "k" H).
Defined.

Lemma tidy_all_space_empty (s : pystr) :
  Tidy s -> (forall c, In c s -> is_space c = true) -> s = [].
Proof.
  intros [_ H _] Hall. destruct s as [|c s]; [reflexivity|].
  simpl in H. rewrite (Hall c (or_introl eq_refl)) in H. discriminate.
Qed.

(** X8. An input made of whitespace only, the empty input included, gives
    the empty string. *)
Theorem remove_disclaimers_blank_input (text : pystr) :
  forallb is_space text = true -> remove_disclaimers_and_mentions text = [].
Proof.
  intros Hall. apply tidy_all_space_empty; [apply normalize_tidy|].
  intros c Hc. destruct (in_remove_disclaimers_inv text c Hc) as [H|H].
  - subst c. reflexivity.
  - rewrite forallb_forall in Hall. apply Hall, H.
Qed.

Lemma remove_disclaimers_blank_input_witness :
  forallb is_space (str "  " ++ LF ++ str " ") = true /\
  remove_disclaimers_and_mentions (str "  " ++ LF ++ str " ") = [].
Proof.
  split; [reflexivity|].
  apply (remove_disclaimers_blank_input (str "  " ++ LF ++ str " ")).
  reflexivity.
Defined.

Lemma lstrip_app_clean (a t : pystr) :
  starts_clean t = true -> lstrip (a ++ t) = lstrip a ++ t.
Proof.
  intros Ht. induction a as [|c a IH]; simpl.
  - apply lstrip_clean, Ht.
  - destruct (is_space c); [exact IH | reflexivity].
Qed.

Lemma rstrip_app_clean (t b : pystr) :
  ends_clean t = true -> rstrip (t ++ b) = t ++ rstrip b.
Proof.
  intros Ht. unfold rstrip.
  rewrite rev_app_distr, lstrip_app_clean by exact Ht.
  rewrite rev_app_distr, rev_involutive. reflexivity.
Qed.

Lemma strip_keeps_substring (kw s : pystr) :
  kw <> [] -> starts_clean kw = true -> ends_clean kw = true ->
  is_substring kw s -> is_substring kw (strip s).
Proof.
  intros Hne Hhead Hlast [a [b Hs]]. subst s. unfold strip.
  assert (Hk : starts_clean (kw ++ b) = true).
  { destruct kw; [contradiction Hne; reflexivity | exact Hhead]. }
  rewrite (lstrip_app_clean a (kw ++ b) Hk), app_assoc.
  assert (Hl : ends_clean (lstrip a ++ kw) = true).
  { unfold ends_clean in *. rewrite rev_app_distr.
    destruct (rev kw) as [|c r] eqn:E; [|exact Hlast].
    apply (f_equal (@rev ascii)) in E. rewrite rev_involutive in E.
    contradiction. }
  rewrite (rstrip_app_clean _ b Hl), <- app_assoc.
  exists (lstrip a), (rstrip b). reflexivity.
Qed.

(** X9. The keyword test is a substring test that ignores case and is not
    disturbed by the trimming: a line that holds one of the four keywords
    in any mixture of upper and lower case is dropped. *)
Theorem keyword_in_any_case_is_dropped (line kw variant : pystr) :
  In kw disclaimer_keywords -> lower variant = kw ->
  is_substring variant line ->
  mentions_disclaimer line = true.
Proof.
  intros Hkw Hlow [a [b Hline]]. apply mentions_disclaimer_spec.
  exists kw. split; [exact Hkw|].
  assert (Hshape : kw <> [] /\ starts_clean kw = true /\ ends_clean kw = true).
  { destruct Hkw as [H|[H|[H|[H|[]]]]]; rewrite <- H;
      repeat split; discriminate. }
  destruct Hshape as [Hne [Hhead Hlast]].
  apply strip_keeps_substring; try assumption.
  exists (lower a), (lower b). subst line. unfold lower in *.
  rewrite !map_app, Hlow. reflexivity.
Qed.

Lemma keyword_in_any_case_is_dropped_witness :
  In (str "the article") disclaimer_keywords /\
  lower (str "The ARTICLE") = str "the article" /\
  is_substring (str "The ARTICLE") (str "  In The ARTICLE we read ") /\
  mentions_disclaimer (str "  In The ARTICLE we read ") = true.
Proof.
  assert (Hkw : In (str "the article") disclaimer_keywords)
    by (right; right; right; left; reflexivity).
  assert (Hsub : is_substring (str "The ARTICLE") (str "  In The ARTICLE we read "))
    by (exists (str "  In "), (str " we read "); reflexivity).
  split; [exact Hkw|]. split; [reflexivity|]. split; [exact Hsub|].
  apply (keyword_in_any_case_is_dropped (str "  In The ARTICLE we read ")
           (str "the article") (str "The ARTICLE") Hkw eq_refl Hsub).
Defined.

(** ** strip_bullet_points *)

(** X10. Whatever the input, the result has no newline, no two whitespace
    code points in a row and no whitespace at either end. *)
Theorem strip_bullet_points_flat (text : pystr) :
  no_newline (strip_bullet_points text) /\
  no_whitespace_run (strip_bullet_points text) /\
  no_outer_whitespace (strip_bullet_points text).
Proof. apply tidy_flat, normalize_tidy. Qed.

Lemma digit_paren_free_spec (s : pystr) :
  digit_paren_free s = true -> no_digit_paren s.
Proof.
  intros H a d b Hs. subst s.
  apply digit_paren_free_app in H. destruct H as [_ H].
  simpl in H. destruct (is_digit d); [discriminate | reflexivity].
Qed.

(** X11. In the result no digit is directly followed by a closing
    parenthesis: the unanchored alternative of the pattern deletes every
    numbered-parenthesis marker, wherever it stands in a line. *)
Theorem strip_bullet_points_no_digit_paren (text : pystr) :
  no_digit_paren (strip_bullet_points text).
Proof. apply digit_paren_free_spec, strip_bullet_points_free. Qed.

Lemma in_skipn_inv (c : ascii) (n : nat) (s : pystr) :
  In c (skipn n s) -> In c s.
Proof.
  intros H. rewrite <- (firstn_skipn n s). apply in_or_app. right. exact H.
Qed.

Lemma in_sub_bullet_from_inv (c : ascii) (b : bool) (s : pystr) :
  In c (sub_bullet_from b s) -> In c s.
Proof.
  funelim (sub_bullet_from b s).
  - contradiction.
  - intros Hc. right. eapply in_skipn_inv. apply H, Hc.
  - intros [Hc|Hc]; [left; exact Hc | right; apply H, Hc].
Qed.

Lemma in_strip_bullet_points_inv (text : pystr) (c : ascii) :
  In c (strip_bullet_points text) -> c = " "%char \/ In c text.
Proof.
  unfold strip_bullet_points. cbv zeta. intros H.
  apply in_strip_inv, in_sub_ws_from_inv in H.
  destruct H as [H|H]; [left; exact H|].
  apply in_join_inv in H. destruct H as [[H|[]] | [p [Hp Hx]]].
  - left. symmetry. exact H.
  - right. apply bullet_cleaned_lines_origin in Hp.
    destruct Hp as [_ [src [Hsrc Hp]]]. subst p.
    apply in_sub_bullet_from_inv, in_strip_inv in Hx.
    eapply in_splitlines_inv; eassumption.
Qed.

(** X12. Nothing is invented: every code point of the result is a blank or
    a code point of the input. *)
Theorem strip_bullet_points_no_new_content (text : pystr) (c : ascii) :
  In c (strip_bullet_points text) -> c = " "%char \/ In c text.
Proof. apply in_strip_bullet_points_inv. Qed.

Lemma strip_bullet_points_no_new_content_witness :
  In "c"%char (strip_bullet_points (str "a 1) b 2) c")) /\
  ("c"%char = " "%char \/ In "c"%char (str "a 1) b 2) c")).
Proof.
  assert (H : In "c"%char (strip_bullet_points (str "a 1) b 2) c")))
    by (vm_compute; tauto).
  split; [exact H|].
  apply (strip_bullet_points_no_new_content (str "a 1) b 2) c") "c" H).
Defined.

(** X13. An input made of whitespace only, the empty input included, gives
    the empty string. *)
Theorem strip_bullet_points_blank_input (text : pystr) :
  forallb is_space text = true -> strip_bullet_points text = [].
Proof.
  intros Hall. apply tidy_all_space_empty; [apply normalize_tidy|].
  intros c Hc. destruct (in_strip_bullet_points_inv text c Hc) as [H|H].
  - subst c. reflexivity.
  - rewrite forallb_forall in Hall. apply Hall, H.
Qed.

Lemma strip_bullet_points_blank_input_witness :
  forallb is_space (str "  " ++ LF ++ str " ") = true /\
  strip_bullet_points (str "  " ++ LF ++ str " ") = [].
Proof.
  split; [reflexivity|].
  apply (strip_bullet_points_blank_input (str "  " ++ LF ++ str " ")).
  reflexivity.
Defined.

Lemma strip_bullet_points_on_clean (t : pystr) :
  Tidy t -> digit_paren_free t = true -> begins_with_marker t = false ->
  strip_bullet_points t = t.
Proof.
  intros Htidy Hfree Hhead. destruct t as [|c r] eqn:E; [reflexivity|].
  rewrite <- E in *.
  unfold strip_bullet_points, bullet_cleaned_lines. cbv zeta.
  rewrite splitlines_single;
    [| intros x Hx; eapply tidy_no_linebreak; eassumption
     | rewrite E; discriminate].
  simpl map. rewrite (tidy_strip _ Htidy), (sub_bullet_fixed _ Hfree Hhead).
  simpl filter. replace (nonempty t) with true by (rewrite E; reflexivity).
  simpl join. rewrite (tidy_sub_ws _ Htidy). apply tidy_strip, Htidy.
Qed.

(** X14. Clean text passes through untouched: a text that is one tidy
    line, does not begin with a marker and has no digit directly followed
    by a closing parenthesis is returned as it is. *)
Theorem strip_bullet_points_keeps_clean_text (t : pystr) :
  Tidy t -> digit_paren_free t = true -> begins_with_marker t = false ->
  strip_bullet_points t = t.
Proof. apply strip_bullet_points_on_clean. Qed.

Lemma strip_bullet_points_keeps_clean_text_witness :
  Tidy (str "Summary about A and B.") /\
  strip_bullet_points (str "Summary about A and B.")
  = str "Summary about A and B.".
Proof.
  assert (Ht : Tidy (str "Summary about A and B."))
    by (split; reflexivity).
  split; [exact Ht|].
  apply (strip_bullet_points_keeps_clean_text (str "Summary about A and B.") Ht);
    reflexivity.
Defined.

(** * Further properties of the pipeline and of the driver *)

Lemma strip_no_outer_whitespace (s : pystr) : no_outer_whitespace (strip s).
Proof.
  assert (H2 : starts_clean (strip s) = true)
    by apply starts_clean_rstrip, starts_clean_lstrip.
  assert (H3 : ends_clean (strip s) = true) by apply ends_clean_rstrip.
  split.
  - intros c r Hs. rewrite Hs in H2. simpl in H2. apply negb_true_iff, H2.
  - intros r c Hs. rewrite Hs in H3. unfold ends_clean in H3.
    rewrite rev_app_distr in H3. simpl in H3. apply negb_true_iff, H3.
Qed.

Lemma enforce_len_bound (text : pystr) (b : Z) :
  (0 <= b)%Z -> (len (enforce_character_limit text b) <= b + 1)%Z.
Proof.
  intros Hb. destruct (Z_le_gt_dec (len text) b) as [E|E].
  - rewrite (enforce_within _ _ E). lia.
  - rewrite (enforce_beyond _ _ E).
    pose proof (truncated_length text b Hb) as Ht.
    destruct (endswith _ _); [lia|].
    rewrite len_app. change (len (str ".")) with 1%Z. lia.
Qed.

(** Everything one run of the pipeline can do. *)
Lemma summarize_shape (ollama : Service) (text : pystr) (max_chars : Z)
    (model_name : pystr) (w : World) :
  let run := summarize_text_with_llama ollama text max_chars model_name w in
  let call_1 := (model_name, prompt_1 text max_chars) in
  let cleaned :=
    remove_disclaimers_and_mentions
      (first_pass_of ollama text max_chars model_name w) in
  let call_2 := (model_name, prompt_2 cleaned max_chars) in
  (invocations (snd run) = invocations w ++ [call_1] \/
   invocations (snd run) = invocations w ++ [call_1; call_2]) /\
  ((exists summary,
      fst run = Returned summary /\ printed (snd run) = printed w /\
      Tidy summary /\
      ((0 <= max_chars)%Z -> (len summary <= max_chars + 1)%Z)) \/
   (exists err,
      fst run = Exited 1 /\
      printed (snd run) = printed w ++ [ollama_complaint err])).
Proof.
  cbv zeta. unfold first_pass_of, first_result. rewrite summarize_eq. cbv zeta.
  destruct (returncode _ =? 0)%Z.
  - destruct (search_marker _).
    + destruct (returncode _ =? 0)%Z.
      * split; [right; simpl; rewrite <- app_assoc; reflexivity|].
        left. eexists. split; [reflexivity|]. split; [reflexivity|].
        split; [apply enforce_character_limit_tidy, strip_bullet_points_tidy
               | apply enforce_len_bound].
      * split; [right; simpl; rewrite <- app_assoc; reflexivity|].
        right. eexists. split; reflexivity.
    + split; [left; reflexivity|].
      left. eexists. split; [reflexivity|]. split; [reflexivity|].
      split; [apply enforce_character_limit_tidy, strip_bullet_points_tidy
             | apply enforce_len_bound].
  - split; [left; reflexivity|]. right. eexists. split; reflexivity.
Qed.

(** X17. The invocations of a run are appended to the log, nothing that
    was logged before is touched, and they are made with the caller's model
    name: first the prompt built from the text and the budget, then, if at
    all, the rewrite prompt built from the disclaimer-cleaned first-pass
    output and the same budget. *)
Theorem summarize_invocations (ollama : Service) (text : pystr)
    (max_chars : Z) (model_name : pystr) (w : World) :
  let run := summarize_text_with_llama ollama text max_chars model_name w in
  let call_1 := (model_name, prompt_1 text max_chars) in
  let cleaned :=
    remove_disclaimers_and_mentions
      (first_pass_of ollama text max_chars model_name w) in
  let call_2 := (model_name, prompt_2 cleaned max_chars) in
  invocations (snd run) = invocations w ++ [call_1] \/
  invocations (snd run) = invocations w ++ [call_1; call_2].
Proof. apply summarize_shape. Qed.

(** X18. Whatever the service hands back, a returned summary has at most
    [max_chars + 1] code points, for every budget from 0 on. *)
Theorem summary_length_bound (ollama : Service) (text : pystr)
    (max_chars : Z) (model_name : pystr) (w w' : World) (summary : pystr) :
  (0 <= max_chars)%Z ->
  summarize_text_with_llama ollama text max_chars model_name w
  = (Returned summary, w') ->
  (len summary <= max_chars + 1)%Z.
Proof.
  intros Hb Hrun.
  destruct (summarize_shape ollama text max_chars model_name w)
    as [_ [[s [Hr [_ [_ Hlen]]]] | [err [Hr _]]]];
    rewrite Hrun in Hr; simpl in Hr; [|discriminate].
  injection Hr as Hr. subst s. apply Hlen, Hb.
Qed.

Lemma summary_length_bound_witness :
  (len (str "Summary point A -.") <= 17 + 1)%Z.
Proof.
  apply (summary_length_bound (constant_service bulleted_answer) article 17
           DEFAULT_MODEL_NAME start
           (snd (summarize_text_with_llama (constant_service bulleted_answer)
                   article 17 DEFAULT_MODEL_NAME start))
           (str "Summary point A -.")).
  - discriminate.
  - reflexivity.
Defined.

(** X19. A first answer that is already clean is returned as it is after
    one invocation: when the first-pass output is single-spaced, mentions
    no disclaimer keyword, holds no marker of either pattern and fits the
    budget, the summary is that output. *)
Theorem clean_answer_passes_through (ollama : Service) (text : pystr)
    (max_chars : Z) (model_name : pystr) (w : World) :
  let first_pass := first_pass_of ollama text max_chars model_name w in
  returncode (first_result ollama text max_chars model_name w) = 0%Z ->
  single_spaced first_pass = true ->
  mentions_disclaimer first_pass = false ->
  search_marker first_pass = false ->
  begins_with_marker first_pass = false ->
  digit_paren_free first_pass = true ->
  (len first_pass <= max_chars)%Z ->
  summarize_text_with_llama ollama text max_chars model_name w
  = (Returned first_pass, logged w (model_name, prompt_1 text max_chars)).
Proof.
  cbv zeta. unfold first_pass_of, first_result.
  set (t := strip (stdout (ollama (invocations w)
                             (model_name, prompt_1 text max_chars)))).
  intros Hok Hspaced Hkw Hgate Hhead Hfree Hlen.
  assert (Ht : Tidy t).
  { split; [exact Hspaced | |].
    - apply starts_clean_rstrip, starts_clean_lstrip.
    - apply ends_clean_rstrip. }
  rewrite summarize_eq. cbv zeta. apply Z.eqb_eq in Hok. rewrite Hok.
  fold t. rewrite (remove_disclaimers_on_tidy t Ht), Hkw, Hgate.
  rewrite (strip_bullet_points_on_clean t Ht Hfree Hhead).
  rewrite (enforce_within _ _ Hlen). reflexivity.
Qed.

Lemma clean_answer_passes_through_witness :
  summarize_text_with_llama (scripted [plain_sentence]) article 50
    DEFAULT_MODEL_NAME start
  = (Returned plain_sentence,
     logged start (DEFAULT_MODEL_NAME, prompt_1 article 50)).
Proof.
  apply (clean_answer_passes_through (scripted [plain_sentence]) article 50
           DEFAULT_MODEL_NAME start); (reflexivity || discriminate).
Defined.

(** ** The driver *)

Lemma strip_all_space (s : pystr) : forallb is_space s = true -> strip s = [].
Proof.
  intros Hall.
  assert (Hl : lstrip s = []).
  { induction s as [|c s IH]; [reflexivity|]. simpl in *.
    apply andb_true_iff in Hall. destruct Hall as [Hc Hs].
    rewrite Hc. apply IH, Hs. }
  unfold strip. rewrite Hl. reflexivity.
Qed.

(** X20. Whatever the parser yields, the extracted text has no whitespace
    at either end, and a page whose text is whitespace only gives the
    empty text. *)
Theorem extract_main_text_trimmed (soup_get_text : HtmlParser)
    (html_content : pystr) :
  no_outer_whitespace (extract_main_text soup_get_text html_content) /\
  (forallb is_space (soup_get_text html_content) = true ->
   extract_main_text soup_get_text html_content = []).
Proof.
  unfold extract_main_text. split.
  - apply strip_no_outer_whitespace.
  - apply strip_all_space.
Qed.

Lemma extract_main_text_trimmed_witness :
  extract_main_text (fun _ => str "  " ++ LF) (str "<html></html>") = [].
Proof.
  apply (extract_main_text_trimmed (fun _ => str "  " ++ LF) (str "<html></html>")).
  reflexivity.
Defined.

(** The driver written out. *)
Lemma main_eq (requests_get : Network) (soup_get_text : HtmlParser)
    (ollama : Service) (args : Namespace) (w : World) :
  main requests_get soup_get_text ollama args w =
  match requests_get (url args) with
  | RequestException e =>
      (Exited 1, complained w (str "Error fetching the article: " ++ e))
  | Responded html_content =>
      match summarize_text_with_llama ollama
              (extract_main_text soup_get_text html_content)
              (characters args) (model args) w with
      | (Returned summary, w1) =>
          (Returned tt,
           complained (complained (complained w1 summary_banner) summary)
             closing_banner)
      | (Exited status, w1) => (Exited status, w1)
      end
  end.
Proof.
  unfold main, fetch_article. cbv zeta.
  destruct (requests_get (url args)) as [html_content|e]; [|reflexivity].
  unfold bind at 1. unfold ret at 1. unfold bind at 1.
  destruct (summarize_text_with_llama _ _ _ _ _) as [[summary|status] w1];
    reflexivity.
Qed.

(** X21. When the page cannot be fetched the driver stops before anything
    else happens: it prints one line holding the error, exits with status
    1, and the model is never invoked. *)
Theorem main_fetch_failure (requests_get : Network)
    (soup_get_text : HtmlParser) (ollama : Service) (args : Namespace)
    (w : World) (e : pystr) :
  requests_get (url args) = RequestException e ->
  let run := main requests_get soup_get_text ollama args w in
  fst run = Exited 1 /\
  printed (snd run) = printed w ++ [str "Error fetching the article: " ++ e] /\
  invocations (snd run) = invocations w.
Proof.
  intros Hfail. cbv zeta. rewrite main_eq, Hfail. repeat split.
Qed.

Lemma main_fetch_failure_witness :
  fst (main (fun _ => RequestException (str "timeout")) (fun html => html)
         (scripted []) default_args start) = Exited 1.
Proof.
  apply (main_fetch_failure (fun _ => RequestException (str "timeout"))
           (fun html => html) (scripted []) default_args start (str "timeout")).
  reflexivity.
Defined.

(** X23. With the page fetched and a model that does not fail, the driver
    returns, and the line it prints between the banners is the summary the
    pipeline gives for the extracted text, the budget and the model name of
    the options. *)
Theorem main_prints_summary (requests_get : Network)
    (soup_get_text : HtmlParser) (ollama : Service) (args : Namespace)
    (w : World) (html_content : pystr) :
  requests_get (url args) = Responded html_content ->
  (forall earlier call, returncode (ollama earlier call) = 0%Z) ->
  exists summary w1,
    summarize_text_with_llama ollama
      (extract_main_text soup_get_text html_content)
      (characters args) (model args) w = (Returned summary, w1) /\
    fst (main requests_get soup_get_text ollama args w) = Returned tt /\
    printed (snd (main requests_get soup_get_text ollama args w))
    = printed w ++ [summary_banner; summary; closing_banner].
Proof.
  intros Hfetch Hok. rewrite main_eq, Hfetch.
  pose proof (summarize_shape ollama
                (extract_main_text soup_get_text html_content)
                (characters args) (model args) w) as Hshape.
  cbv zeta in Hshape. revert Hshape.
  rewrite summarize_eq. cbv zeta. rewrite !Hok. simpl.
  destruct (search_marker _); simpl; intros [_ [[s [Hr [Hp _]]] | [err [Hr _]]]];
    try discriminate;
    eexists; eexists; (split; [reflexivity|]); (split; [reflexivity|]);
    simpl; rewrite <- !app_assoc; reflexivity.
Qed.

Lemma main_prints_summary_witness :
  printed
    (snd (main (fun _ => Responded (str "<p>Body</p>")) (fun html => html)
            (constant_service plain_sentence) default_args start))
  = [summary_banner; plain_sentence; closing_banner].
Proof.
  destruct (main_prints_summary (fun _ => Responded (str "<p>Body</p>"))
              (fun html => html) (constant_service plain_sentence)
              default_args start (str "<p>Body</p>") eq_refl
              (fun _ _ => eq_refl))
    as [summary [w1 [Hrun [_ Hprinted]]]].
  rewrite Hprinted. injection Hrun as Hs _. rewrite <- Hs. reflexivity.
Defined.

(** * The program when a library call raises *)

Lemma raising_llama_run_eq (ollama : Raising.Service)
    (model_name prompt : pystr) (w : World) :
  Raising.llama_run ollama model_name prompt w =
  match ollama (invocations w) (model_name, prompt) with
  | Raising.Completed result =>
      if (returncode result =? 0)%Z
      then (Raising.Returned (strip (stdout result)),
            logged w (model_name, prompt))
      else (Raising.Exited 1,
            complained (logged w (model_name, prompt))
              (ollama_complaint (stderr result)))
  | Raising.RunRaises exception => (Raising.Raised exception, w)
  end.
Proof.
  unfold Raising.llama_run, Raising.bind, Raising.subprocess_run.
  destruct (ollama _ _) as [result|exception]; [|reflexivity].
  destruct (returncode result =? 0)%Z; reflexivity.
Qed.

(** X15. What one call of llama_run does.  When [subprocess.run] raises,
    the exception leaves llama_run uncaught, nothing is printed and no
    invocation is recorded.  When it hands back a result, one invocation is
    recorded; on return code 0 llama_run returns the output without
    whitespace at either end and prints nothing, and on any other return
    code it prints one line holding the error output and exits with
    status 1. *)
Theorem llama_run_outcome (ollama : Raising.Service)
    (model_name prompt : pystr) (w : World) :
  let run := Raising.llama_run ollama model_name prompt w in
  (forall exception,
     ollama (invocations w) (model_name, prompt) = Raising.RunRaises exception ->
     run = (Raising.Raised exception, w)) /\
  (forall result,
     ollama (invocations w) (model_name, prompt) = Raising.Completed result ->
     invocations (snd run) = invocations w ++ [(model_name, prompt)] /\
     (returncode result = 0%Z ->
      fst run = Raising.Returned (strip (stdout result)) /\
      no_outer_whitespace (strip (stdout result)) /\
      printed (snd run) = printed w) /\
     (returncode result <> 0%Z ->
      fst run = Raising.Exited 1 /\
      printed (snd run) = printed w ++ [ollama_complaint (stderr result)])).
Proof.
  cbv zeta. rewrite raising_llama_run_eq. split.
  - intros exception H. rewrite H. reflexivity.
  - intros result H. rewrite H.
    destruct (returncode result =? 0)%Z eqn:E.
    + apply Z.eqb_eq in E. split; [reflexivity|]. split.
      * intros _. split; [reflexivity|].
        split; [apply strip_no_outer_whitespace | reflexivity].
      * intros Hne. contradiction.
    + apply Z.eqb_neq in E. split; [reflexivity|]. split.
      * intros H0. contradiction.
      * intros _. split; reflexivity.
Qed.

Lemma llama_run_outcome_witness :
  Raising.llama_run (fun _ _ => Raising.RunRaises (str "FileNotFoundError"))
    DEFAULT_MODEL_NAME (str "hi") start
  = (Raising.Raised (str "FileNotFoundError"), start) /\
  fst (Raising.llama_run (completing (scripted [])) DEFAULT_MODEL_NAME
         (str "hi") start) = Raising.Exited 1 /\
  fst (Raising.llama_run (completing (scripted [str " ok "]))
         DEFAULT_MODEL_NAME (str "hi") start) = Raising.Returned (str "ok").
Proof.
  split; [|split].
  - destruct (llama_run_outcome
                (fun _ _ => Raising.RunRaises (str "FileNotFoundError"))
                DEFAULT_MODEL_NAME (str "hi") start) as [H _].
    exact (H _ eq_refl).
  - destruct (llama_run_outcome (completing (scripted []))
                DEFAULT_MODEL_NAME (str "hi") start) as [_ H].
    destruct (H _ eq_refl) as [_ [_ Hfail]].
    apply Hfail. discriminate.
  - destruct (llama_run_outcome (completing (scripted [str " ok "]))
                DEFAULT_MODEL_NAME (str "hi") start) as [_ H].
    destruct (H _ eq_refl) as [_ [Hok _]].
    apply Hok. reflexivity.
Defined.

(** The pipeline written out, with the calls that raise. *)
Lemma raising_summarize_eq (ollama : Raising.Service) (text : pystr)
    (max_chars : Z) (model_name : pystr) (w : World) :
  Raising.summarize_text_with_llama ollama text max_chars model_name w =
  let call_1 := (model_name, prompt_1 text max_chars) in
  let w1 := logged w call_1 in
  match ollama (invocations w) call_1 with
  | Raising.RunRaises exception => (Raising.Raised exception, w)
  | Raising.Completed result_1 =>
      if (returncode result_1 =? 0)%Z then
        let pass_one_cleaned :=
          remove_disclaimers_and_mentions (strip (stdout result_1)) in
        if search_marker pass_one_cleaned then
          let call_2 := (model_name, prompt_2 pass_one_cleaned max_chars) in
          match ollama (invocations w1) call_2 with
          | Raising.RunRaises exception => (Raising.Raised exception, w1)
          | Raising.Completed result_2 =>
              if (returncode result_2 =? 0)%Z then
                (Raising.Returned
                   (enforce_character_limit
                      (strip_bullet_points
                         (remove_disclaimers_and_mentions
                            (strip (stdout result_2))))
                      max_chars),
                 logged w1 call_2)
              else (Raising.Exited 1,
                    complained (logged w1 call_2)
                      (ollama_complaint (stderr result_2)))
          end
        else
          (Raising.Returned
             (enforce_character_limit (strip_bullet_points pass_one_cleaned)
                max_chars),
           w1)
      else (Raising.Exited 1,
            complained w1 (ollama_complaint (stderr result_1)))
  end.
Proof.
  unfold Raising.summarize_text_with_llama, Raising.pass_one_summary,
    Raising.pass_two_rewrite.
  unfold Raising.bind at 1 2. rewrite raising_llama_run_eq. cbv zeta.
  destruct (ollama _ _) as [result_1|exception]; [|reflexivity].
  destruct (returncode result_1 =? 0)%Z; [|reflexivity].
  unfold Raising.ret at 1.
  destruct (search_marker _); [|reflexivity].
  unfold Raising.bind. rewrite raising_llama_run_eq.
  destruct (ollama _ _) as [result_2|exception]; [|reflexivity].
  destruct (returncode result_2 =? 0)%Z; reflexivity.
Qed.

(** When no call raises, the two models of the pipeline agree. *)
Lemma raising_summarize_completing (ollama : Service) (text : pystr)
    (max_chars : Z) (model_name : pystr) (w : World) :
  Raising.summarize_text_with_llama (completing ollama) text max_chars
    model_name w
  = lift (summarize_text_with_llama ollama text max_chars model_name w).
Proof.
  rewrite raising_summarize_eq, summarize_eq. unfold completing. cbv zeta.
  destruct (returncode _ =? 0)%Z; [|reflexivity].
  destruct (search_marker _); [|reflexivity].
  destruct (returncode _ =? 0)%Z; reflexivity.
Qed.

Lemma raising_summarize_shape (ollama : Raising.Service) (text : pystr)
    (max_chars : Z) (model_name : pystr) (w : World) :
  let run :=
    Raising.summarize_text_with_llama ollama text max_chars model_name w in
  pipeline_ending ollama w run /\
  exists new, invocations (snd run) = invocations w ++ new /\ length new <= 2.
Proof.
  cbv zeta. rewrite raising_summarize_eq. cbv zeta. unfold pipeline_ending.
  set (call_1 := (model_name, prompt_1 text max_chars)).
  destruct (ollama (invocations w) call_1) as [result_1|exception] eqn:E1.
  - destruct (returncode result_1 =? 0)%Z eqn:R1.
    + set (cleaned := remove_disclaimers_and_mentions (strip (stdout result_1))).
      destruct (search_marker cleaned).
      * set (call_2 := (model_name, prompt_2 cleaned max_chars)).
        destruct (ollama (invocations (logged w call_1)) call_2)
          as [result_2|exception] eqn:E2.
        -- destruct (returncode result_2 =? 0)%Z eqn:R2; simpl.
           ++ split.
              ** split; [reflexivity|].
                 apply enforce_character_limit_tidy, strip_bullet_points_tidy.
              ** exists [call_1; call_2]. rewrite <- app_assoc.
                 split; [reflexivity | simpl; lia].
           ++ split.
              ** split; [reflexivity|].
                 exists (invocations w ++ [call_1]), call_2, result_2.
                 split; [reflexivity|]. split; [exact E2|].
                 split; [apply Z.eqb_neq, R2 | reflexivity].
              ** exists [call_1; call_2]. rewrite <- app_assoc.
                 split; [reflexivity | simpl; lia].
        -- simpl. split.
           ++ split; [reflexivity|]. exists call_2. exact E2.
           ++ exists [call_1]. split; [reflexivity | simpl; lia].
      * simpl. split.
        -- split; [reflexivity|].
           apply enforce_character_limit_tidy, strip_bullet_points_tidy.
        -- exists [call_1]. split; [reflexivity | simpl; lia].
    + simpl. split.
      * split; [reflexivity|]. exists (invocations w), call_1, result_1.
        split; [reflexivity|]. split; [exact E1|].
        split; [apply Z.eqb_neq, R1 | reflexivity].
      * exists [call_1]. split; [reflexivity | simpl; lia].
  - simpl. split.
    + split; [reflexivity|]. exists call_1. exact E1.
    + exists []. rewrite app_nil_r. split; [reflexivity | simpl; lia].
Qed.

(** X16. How a run of the pipeline ends when a call of [subprocess.run]
    may raise.  A run that returns has printed nothing.  A run that exits
    does so with status 1, after printing exactly one line: the error
    output of the invocation made last, whose return code was not 0.  A
    run that ends in an exception has printed nothing, and the exception is
    the one raised by the call that would have been the next invocation.
    A first invocation that fails, or a first call that raises, ends the
    run at once: nothing more is invoked. *)
Theorem summarize_outcome (ollama : Raising.Service) (text : pystr)
    (max_chars : Z) (model_name : pystr) (w : World) :
  let run :=
    Raising.summarize_text_with_llama ollama text max_chars model_name w in
  let call_1 := (model_name, prompt_1 text max_chars) in
  pipeline_ending ollama w run /\
  (forall result,
     ollama (invocations w) call_1 = Raising.Completed result ->
     returncode result <> 0%Z ->
     fst run = Raising.Exited 1 /\
     invocations (snd run) = invocations w ++ [call_1]) /\
  (forall exception,
     ollama (invocations w) call_1 = Raising.RunRaises exception ->
     run = (Raising.Raised exception, w)).
Proof.
  cbv zeta. split; [apply raising_summarize_shape|].
  rewrite raising_summarize_eq. cbv zeta. split.
  - intros result H Hfail. rewrite H.
    apply Z.eqb_neq in Hfail. rewrite Hfail. split; reflexivity.
  - intros exception H. rewrite H. reflexivity.
Qed.

Lemma summarize_outcome_witness :
  fst (Raising.summarize_text_with_llama (completing (scripted [])) article 50
         DEFAULT_MODEL_NAME start) = Raising.Exited 1 /\
  Raising.summarize_text_with_llama
    (fun _ _ => Raising.RunRaises (str "FileNotFoundError")) article 50
    DEFAULT_MODEL_NAME start
  = (Raising.Raised (str "FileNotFoundError"), start).
Proof.
  split.
  - destruct (summarize_outcome (completing (scripted [])) article 50
                DEFAULT_MODEL_NAME start) as [_ [H _]].
    apply (H _ eq_refl). discriminate.
  - destruct (summarize_outcome
                (fun _ _ => Raising.RunRaises (str "FileNotFoundError"))
                article 50 DEFAULT_MODEL_NAME start) as [_ [_ H]].
    exact (H _ eq_refl).
Defined.

(** The driver written out, with the calls that raise. *)
Lemma raising_main_eq (requests_get : Raising.Network)
    (soup_get_text : Raising.HtmlParser) (ollama : Raising.Service)
    (args : Namespace) (w : World) :
  Raising.main requests_get soup_get_text ollama args w =
  match requests_get (url args) with
  | Raising.HttpRaises exception => (Raising.Raised exception, w)
  | Raising.RequestException e =>
      (Raising.Exited 1,
       complained w (str "Error fetching the article: " ++ e))
  | Raising.Responded html_content =>
      match soup_get_text html_content with
      | Raising.ParseRaises exception => (Raising.Raised exception, w)
      | Raising.Parsed text =>
          match Raising.summarize_text_with_llama ollama (strip text)
                  (characters args) (model args) w with
          | (Raising.Returned summary, w1) =>
              (Raising.Returned tt,
               complained (complained (complained w1 summary_banner) summary)
                 closing_banner)
          | (Raising.Exited status, w1) => (Raising.Exited status, w1)
          | (Raising.Raised exception, w1) => (Raising.Raised exception, w1)
          end
      end
  end.
Proof.
  unfold Raising.main, Raising.fetch_article, Raising.extract_main_text.
  cbv zeta.
  destruct (requests_get (url args)) as [html_content|e|exception];
    [|reflexivity|reflexivity].
  unfold Raising.bind at 1. unfold Raising.ret at 1.
  unfold Raising.bind at 1.
  destruct (soup_get_text html_content) as [text|exception]; [|reflexivity].
  unfold Raising.ret at 1. unfold Raising.bind at 1.
  destruct (Raising.summarize_text_with_llama _ _ _ _ _)
    as [[summary|status|exception] w1]; reflexivity.
Qed.

(** When no call raises, the two models of the driver agree. *)
Lemma raising_main_completing (requests_get : Network)
    (soup_get_text : HtmlParser) (ollama : Service) (args : Namespace)
    (w : World) :
  Raising.main (answering requests_get) (parsing soup_get_text)
    (completing ollama) args w
  = lift (main requests_get soup_get_text ollama args w).
Proof.
  rewrite raising_main_eq, main_eq. unfold answering, parsing.
  destruct (requests_get (url args)) as [html_content|e]; [|reflexivity].
  rewrite raising_summarize_completing. unfold extract_main_text.
  destruct (summarize_text_with_llama _ _ _ _ _) as [[summary|status] w1];
    reflexivity.
Qed.

(** X22. How a run of the driver ends, from the parsed options on, when
    the library calls may raise.  A run that returns has printed exactly
    the banner, the summary and the closing line, and the summary is one
    tidy line.  A run that exits does so with status 1 after printing
    exactly one line: the complaint of the fetch, holding the message of
    the [RequestException], or the complaint of the model, holding the
    error output of an invocation whose return code was not 0.  A run that
    ends in an uncaught exception has printed nothing.  In every case the
    model was invoked at most twice. *)
Theorem main_outcome (requests_get : Raising.Network)
    (soup_get_text : Raising.HtmlParser) (ollama : Raising.Service)
    (args : Namespace) (w : World) :
  let run := Raising.main requests_get soup_get_text ollama args w in
  match fst run with
  | Raising.Returned _ =>
      exists summary,
        printed (snd run)
        = printed w ++ [summary_banner; summary; closing_banner] /\
        no_newline summary /\ no_whitespace_run summary /\
        no_outer_whitespace summary
  | Raising.Exited status =>
      status = 1%Z /\
      exists line,
        printed (snd run) = printed w ++ [line] /\
        ((exists e, requests_get (url args) = Raising.RequestException e /\
                    line = str "Error fetching the article: " ++ e) \/
         (exists earlier call result,
            ollama earlier call = Raising.Completed result /\
            returncode result <> 0%Z /\
            line = ollama_complaint (stderr result)))
  | Raising.Raised _ => printed (snd run) = printed w
  end /\
  length (invocations (snd run)) <= length (invocations w) + 2.
Proof.
  cbv zeta. rewrite raising_main_eq.
  destruct (requests_get (url args)) as [html_content|e|exception] eqn:Hfetch.
  - destruct (soup_get_text html_content) as [text|exception].
    + pose proof (raising_summarize_shape ollama (strip text)
                    (characters args) (model args) w) as Hshape.
      cbv zeta in Hshape. unfold pipeline_ending in Hshape.
      destruct (Raising.summarize_text_with_llama _ _ _ _ _)
        as [[summary|status|exception] w1]; simpl in Hshape |- *;
        destruct Hshape as [Hend [new [Hnew Hlen]]].
      * destruct Hend as [Hp Ht]. split.
        -- exists summary. split.
           ++ rewrite Hp, <- !app_assoc. reflexivity.
           ++ apply tidy_flat, Ht.
        -- rewrite Hnew, length_app. lia.
      * destruct Hend as [Hs [earlier [call [result [_ [Hcall [Hrc Hp]]]]]]].
        split.
        -- split; [exact Hs|]. eexists. split; [exact Hp|].
           right. exists earlier, call, result. repeat split; assumption.
        -- rewrite Hnew, length_app. lia.
      * destruct Hend as [Hp _]. split; [exact Hp|].
        rewrite Hnew, length_app. lia.
    + simpl. split; [reflexivity | lia].
  - simpl. split; [|lia]. split; [reflexivity|]. eexists.
    split; [reflexivity|]. left. exists e. split; reflexivity.
  - simpl. split; [reflexivity | lia].
Qed.
